(** * Conversation chaining and stream aggregation in the demo assistants

    A shallow embedding of the parts of the repository that keep local
    state consistent with a remote, stateless model API:

    - [Demo1]: [PDFSearchAssistant] of [demo_1_pdf_search.py]
      ([upload_pdf], [search], [search_streaming]);
    - [Demo2]: [InvestmentAdvisor] of [demo_2_investment_advisor.py]
      ([_stream_response], [_sync_response]);
    - [PersonalAssistant]: the local function tools of
      [claude-code-examples/personal_assistant/main.py]
      ([get_current_time], [calculate], ...);
    - [Orchestration]: the bounded tool loop, which the repository leaves
      to the agent SDK and which is therefore modelled from the design.

    Python methods are functions in a state-and-exception monad whose
    state survives a raised exception, as an object's fields do. *)

From Stdlib Require Import String Ascii List Bool Arith Lia.
Import ListNotations.
Local Open Scope string_scope.

(* ================================================================== *)
(** * Python: exceptions, results, the state monad, strings           *)
(* ================================================================== *)

Module Py.

(** The exception classes the sources name or can meet, with the part
    of the class hierarchy that [except] clauses look at. *)
Inductive exc_class : Type :=
| BaseException
| Exception
| KeyboardInterrupt
| ValueError
| LookupError
| IndexError
| KeyError
| AttributeError
| UnknownTimeZoneError
| OtherError (name : string).

(** Direct base class; [OtherError] stands for any further subclass of
    [Exception] (network errors of the SDK, [ZeroDivisionError], ...). *)
Definition base (c : exc_class) : option exc_class :=
  match c with
  | BaseException => None
  | Exception => Some BaseException
  | KeyboardInterrupt => Some BaseException
  | ValueError => Some Exception
  | LookupError => Some Exception
  | IndexError => Some LookupError
  | KeyError => Some LookupError
  | AttributeError => Some Exception
  | UnknownTimeZoneError => Some KeyError
  | OtherError _ => Some Exception
  end.

Definition exc_class_eqb (c d : exc_class) : bool :=
  match c, d with
  | BaseException, BaseException
  | Exception, Exception
  | KeyboardInterrupt, KeyboardInterrupt
  | ValueError, ValueError
  | LookupError, LookupError
  | IndexError, IndexError
  | KeyError, KeyError
  | AttributeError, AttributeError
  | UnknownTimeZoneError, UnknownTimeZoneError => true
  | OtherError a, OtherError b => String.eqb a b
  | _, _ => false
  end.

(** [issubclass c d]: walk up the bases; the hierarchy above is four
    levels deep, so five steps reach the root from anywhere. *)
Fixpoint issubclass_upto (n : nat) (c d : exc_class) : bool :=
  exc_class_eqb c d ||
  match n with
  | O => false
  | S n' => match base c with
            | Some b => issubclass_upto n' b d
            | None => false
            end
  end.

Definition issubclass : exc_class -> exc_class -> bool := issubclass_upto 5.

(** An exception object: its class and what [str(e)] gives. *)
Record exn : Type := mkExn { exc_type : exc_class; str : string }.

Definition isinstance (e : exn) (c : exc_class) : bool :=
  issubclass (exc_type e) c.

Inductive result (A : Type) : Type :=
| Return (a : A)
| Raise (e : exn).
Arguments Return {A} a.
Arguments Raise {A} e.

(** A computation over a state [S]; the state is returned in both
    outcomes. *)
Definition M (S A : Type) : Type := S -> result A * S.

Definition ret {S A} (a : A) : M S A := fun s => (Return a, s).

Definition bind {S A B} (m : M S A) (k : A -> M S B) : M S B :=
  fun s => match m s with
           | (Return a, s') => k a s'
           | (Raise e, s') => (Raise e, s')
           end.

Definition raise {S A} (c : exc_class) (msg : string) : M S A :=
  fun s => (Raise (mkExn c msg), s).

Definition reraise {S A} (e : exn) : M S A := fun s => (Raise e, s).

Definition lift {S A} (r : result A) : M S A := fun s => (r, s).

(** A library call that cannot raise. *)
Definition step {S A} (f : S -> A * S) : M S A :=
  fun s => (Return (fst (f s)), snd (f s)).

Definition modify {S} (f : S -> S) : M S unit := fun s => (Return tt, f s).

(** [try: body  except c as e: handler e].  An exception that is not an
    instance of [c] is not caught. *)
Definition try_except {S A} (body : M S A) (c : exc_class)
           (handler : exn -> M S A) : M S A :=
  fun s => match body s with
           | (Return a, s') => (Return a, s')
           | (Raise e, s') =>
               if isinstance e c then handler e s' else (Raise e, s')
           end.

(** [for x in xs: acc = body x acc], the loop's local variables being
    the accumulator. *)
Fixpoint for_in {S X A} (xs : list X) (body : X -> A -> M S A) (acc : A)
  : M S A :=
  match xs with
  | [] => ret acc
  | x :: rest => bind (body x acc) (for_in rest body)
  end.

(** Indexing: [l[-1]] and [l[0]] raise [IndexError] on an empty list. *)
Fixpoint last {A} (l : list A) : option A :=
  match l with
  | [] => None
  | [x] => Some x
  | _ :: rest => last rest
  end.

Definition index_last {A} (l : list A) : result A :=
  match last l with
  | Some x => Return x
  | None => Raise (mkExn IndexError "list index out of range")
  end.

Definition index_first {A} (l : list A) : result A :=
  match l with
  | x :: _ => Return x
  | [] => Raise (mkExn IndexError "list index out of range")
  end.

(** [''.join(parts)] *)
Definition join (parts : list string) : string := String.concat "" parts.

(** ["\n"] and [s * n] *)
Definition nl : string := String (ascii_of_nat 10) "".

Fixpoint str_mul (s : string) (n : nat) : string :=
  match n with
  | O => ""
  | S n' => s ++ str_mul s n'
  end.

(** Truth value of an [Optional[str]]: [None] and [''] are false. *)
Definition truthy (o : option string) : bool :=
  match o with
  | None => false
  | Some "" => false
  | Some _ => true
  end.

(** [os.path.basename]: what follows the last slash. *)
Fixpoint basename_from (acc : string) (p : string) : string :=
  match p with
  | EmptyString => acc
  | String c rest =>
      if Ascii.eqb c "/"%char then basename_from rest rest
      else basename_from acc rest
  end.

Definition basename (p : string) : string := basename_from p p.

End Py.

Import Py.

Declare Scope py_scope.
Delimit Scope py_scope with py.
Notation "x <- m ;; k" := (Py.bind m (fun x => k))
  (at level 100, m at next level, right associativity) : py_scope.
Notation "m ;;; k" := (Py.bind m (fun _ => k))
  (at level 100, right associativity) : py_scope.

(* ================================================================== *)
(** * The SDK boundary: what the demos send and what they read back   *)
(* ================================================================== *)

Module OpenAI.

Record content_part : Type := { text : string }.

(** An item of [response.output] (and the [item] of an
    [output_item.added] event).  [item_type] is its [type] attribute;
    [content] is [None] for items that have no such attribute (a
    [file_search_call], a [code_interpreter_call]). *)
Record output_item : Type :=
  { item_type : string; content : option (list content_part) }.

Record response_obj : Type := { id : string; output : list output_item }.

(** A streamed event, with the attributes the loops read.  [item] is
    [None] when [hasattr(event, 'item')] is false. *)
Record event : Type :=
  { type : string;
    delta : string;
    response : response_obj;
    item : option output_item }.

(** What iterating a stream yields: its events in arrival order, then
    either a normal end or the exception the iterator raises. *)
Record stream : Type :=
  { events : list event; interrupted : option exn }.

Inductive tool : Type :=
| file_search (vector_store_ids : list (option string))
              (max_num_results : nat)
| code_interpreter (container_type : string).

(** The keyword arguments of [client.responses.create]. *)
Record request : Type :=
  { input : string;
    model : string;
    instructions : string;
    previous_response_id : option string;
    tools : list tool;
    stream_flag : bool }.

Inductive remote_call : Type :=
| call_responses_create (req : request)
| call_vector_stores_create (name : string)
| call_files_create (file_path : string)
| call_vector_stores_files_create (vector_store_id : option string)
                                  (file_id : string).

(** The behaviour of [self.client] during one method call: the reply
    to each request.  The service is free to answer differently on
    every call, so the methods below take it as an argument. *)
Record client : Type :=
  { responses_create : request -> result response_obj;
    responses_create_stream : request -> result stream;
    vector_stores_create : string -> result string;
    files_create : string -> result string;
    vector_stores_files_create : option string -> string -> result unit }.

(** Everything outside the object: the console and the record of the
    remote calls issued so far. *)
Record world : Type :=
  { stdout : string; remote_log : list remote_call }.

Definition empty_world : world := {| stdout := ""; remote_log := [] |}.

Definition write (s : string) (w : world) : world :=
  {| stdout := stdout w ++ s; remote_log := remote_log w |}.

Definition log (c : remote_call) (w : world) : world :=
  {| stdout := stdout w; remote_log := remote_log w ++ [c] |}.

(** Event constructors for the kinds the loops recognise, and for any
    other kind. *)
Definition no_response : response_obj := {| id := ""; output := [] |}.

Definition TextDelta (d : string) : event :=
  {| type := "response.output_text.delta"; delta := d;
     response := no_response; item := None |}.

Definition TurnCompleted (i : string) : event :=
  {| type := "response.completed"; delta := "";
     response := {| id := i; output := [] |}; item := None |}.

Definition OutputItemAdded (ty : string) : event :=
  {| type := "response.output_item.added"; delta := "";
     response := no_response;
     item := Some {| item_type := ty; content := None |} |}.

Definition OtherEvent (ty : string) : event :=
  {| type := ty; delta := ""; response := no_response; item := None |}.

Section Effects.
Context {Self : Type}.

Definition St : Type := (Self * world)%type.

(** [print(s, end=e)] *)
Definition print (s e : string) : M St unit :=
  modify (fun st => (fst st, write (s ++ e) (snd st))).

Definition println (s : string) : M St unit := print s nl.

Definition notify (f : world -> world) : M St unit :=
  modify (fun st => (fst st, f (snd st))).

(** A remote call: recorded, then answered by the client. *)
Definition remote {A} (c : remote_call) (r : result A) : M St A :=
  bind (notify (log c)) (fun _ => lift r).

Definition self : M St Self := fun st => (Return (fst st), st).

Definition update (f : Self -> Self) : M St unit :=
  modify (fun st => (f (fst st), snd st)).

(** [for event in stream: ...] *)
Definition for_event {A} (s : stream) (body : event -> A -> M St A)
           (acc : A) : M St A :=
  bind (for_in (events s) body acc)
       (fun acc' => match interrupted s with
                    | None => ret acc'
                    | Some e => reraise e
                    end).
End Effects.

(** [response.output[-1].content[0].text] *)
Definition last_output_text (r : response_obj) : result string :=
  match index_last (output r) with
  | Raise e => Raise e
  | Return it =>
      match content it with
      | None =>
          Raise (mkExn AttributeError "object has no attribute 'content'")
      | Some parts =>
          match index_first parts with
          | Raise e => Raise e
          | Return part => Return (text part)
          end
      end
  end.

End OpenAI.

Import OpenAI.
Local Open Scope py_scope.

(* ================================================================== *)
(** * demo_1_pdf_search.py                                            *)
(* ================================================================== *)

Module Demo1.

(** An entry of [conversation_history]; [response_id] is [None] when
    the stream carried no [response.completed] event. *)
Record history_entry : Type :=
  { query : string; response : string; response_id : option string }.

Record PDFSearchAssistant : Type :=
  { vector_store_id : option string;
    conversation_history : list history_entry }.

Definition __init__ : PDFSearchAssistant :=
  {| vector_store_id := None; conversation_history := [] |}.

Definition instructions : string :=
  "You are a helpful research assistant that searches through PDF documents.
        Answer questions accurately based on the documents provided.
        Always cite your sources when possible using the document names.
        If you're not sure about something, admit it and stick to the information in the documents.".

Definition not_created : string :=
  "Vector store not created. Call create_vector_store() first.".

Definition set_vector_store_id (v : option string)
           (a : PDFSearchAssistant) : PDFSearchAssistant :=
  {| vector_store_id := v;
     conversation_history := conversation_history a |}.

Definition append_history (e : history_entry)
           (a : PDFSearchAssistant) : PDFSearchAssistant :=
  {| vector_store_id := vector_store_id a;
     conversation_history := conversation_history a ++ [e] |}.

Definition create_vector_store (c : client) (name : string)
  : M (@St PDFSearchAssistant) string :=
  println ("Creating vector store: " ++ name) ;;;
  vs <- remote (call_vector_stores_create name)
               (vector_stores_create c name) ;;
  update (set_vector_store_id (Some vs)) ;;;
  println ("✓ Created vector store with ID: " ++ vs) ;;;
  ret vs.

(** The dict [upload_pdf] returns, as its items in order. *)
Definition status_dict : Type := list (string * string).

(** [open_rb] is [open(file_path, 'rb')]: it raises when the file cannot
    be opened.  [time.sleep(2)] has no effect on the state modelled. *)
Definition upload_pdf (c : client) (open_rb : string -> result unit)
           (file_path : string) : M (@St PDFSearchAssistant) status_dict :=
  a <- self ;;
  if negb (truthy (vector_store_id a)) then raise ValueError not_created
  else
    let file_name := basename file_path in
    println ("Uploading " ++ file_name ++ "...") ;;;
    try_except
      (lift (open_rb file_path) ;;;
       file_id <- remote (call_files_create file_path)
                         (files_create c file_path) ;;
       remote (call_vector_stores_files_create (vector_store_id a) file_id)
              (vector_stores_files_create c (vector_store_id a) file_id) ;;;
       println ("✓ Successfully uploaded: " ++ file_name) ;;;
       ret [("file", file_name); ("status", "success");
            ("file_id", file_id)])
      Exception
      (fun e =>
         println ("✗ Failed to upload " ++ file_name ++ ": " ++ str e) ;;;
         ret [("file", file_name); ("status", "failed");
              ("error", str e)]).

(** Lines 102-105 and 150-153: the id to chain the next request to. *)
Definition previous_response_id_of (a : PDFSearchAssistant)
  : option string :=
  match Py.last (conversation_history a) with
  | None => None
  | Some e => response_id e
  end.

Definition search_request (a : PDFSearchAssistant) (query model : string)
           (streaming : bool) : request :=
  {| input := query;
     OpenAI.model := model;
     OpenAI.instructions := instructions;
     previous_response_id := previous_response_id_of a;
     tools := [file_search [vector_store_id a] 5];
     stream_flag := streaming |}.

Definition search (c : client) (query model : string)
  : M (@St PDFSearchAssistant) string :=
  a <- self ;;
  if negb (truthy (vector_store_id a)) then raise ValueError not_created
  else
    let req := search_request a query model false in
    println (nl ++ "Searching: " ++ query) ;;;
    println (str_mul "=" 60) ;;;
    response <- remote (call_responses_create req)
                       (responses_create c req) ;;
    response_text <- lift (last_output_text response) ;;
    update (append_history {| query := query;
                              response := response_text;
                              response_id := Some (id response) |}) ;;;
    ret response_text.

(** The local variables of the streaming loop. *)
Definition locals : Type := (list string * option string)%type.

(** Body of the loop at lines 177-182.  [observer] is what is done with
    each delta besides keeping it; the source prints it. *)
Definition stream_body (observer : string -> world -> world)
           (ev : event) (l : locals) : M (@St PDFSearchAssistant) locals :=
  let '(full_text, current_response_id) := l in
  if type ev =? "response.output_text.delta" then
    notify (observer (delta ev)) ;;;
    ret ((full_text ++ [delta ev])%list, current_response_id)
  else if type ev =? "response.completed" then
    ret (full_text, Some (id (OpenAI.response ev)))
  else ret (full_text, current_response_id).

Definition search_streaming_with (observer : string -> world -> world)
           (c : client) (query model : string)
  : M (@St PDFSearchAssistant) unit :=
  a <- self ;;
  if negb (truthy (vector_store_id a)) then raise ValueError not_created
  else
    let req := search_request a query model true in
    println (nl ++ "Searching: " ++ query) ;;;
    println (str_mul "=" 60) ;;;
    print "Response: " "" ;;;
    stream <- remote (call_responses_create req)
                     (responses_create_stream c req) ;;
    l <- for_event stream (stream_body observer) ([], None) ;;
    println (nl ++ str_mul "=" 60) ;;;
    let response_text := join (fst l) in
    update (append_history {| query := query;
                              response := response_text;
                              response_id := snd l |}).

(** [print(event.delta, end="", flush=True)] *)
Definition print_delta (d : string) (w : world) : world :=
  write (d ++ "") w.

Definition search_streaming : client -> string -> string ->
                              M (@St PDFSearchAssistant) unit :=
  search_streaming_with print_delta.

End Demo1.

(* ================================================================== *)
(** * demo_2_investment_advisor.py                                    *)
(* ================================================================== *)

Module Demo2.

Record InvestmentAdvisor : Type := { conversation_id : option string }.

Definition __init__ : InvestmentAdvisor := {| conversation_id := None |}.

Definition set_conversation_id (i : option string)
           (_ : InvestmentAdvisor) : InvestmentAdvisor :=
  {| conversation_id := i |}.

Definition advisor_request (a : InvestmentAdvisor)
           (query instructions : string) (tools : list tool)
           (model : string) (streaming : bool) : request :=
  {| input := query;
     OpenAI.model := model;
     OpenAI.instructions := instructions;
     previous_response_id := conversation_id a;
     OpenAI.tools := tools;
     stream_flag := streaming |}.

(** Body of the loop at lines 91-99; the only local is [full_text],
    the response id goes straight into [self.conversation_id]. *)
Definition stream_body (ev : event) (full_text : list string)
  : M (@St InvestmentAdvisor) (list string) :=
  if type ev =? "response.output_text.delta" then
    print (delta ev) "" ;;;
    ret (full_text ++ [delta ev])%list
  else if type ev =? "response.output_item.added" then
    match item ev with
    | Some it =>
        if item_type it =? "code_interpreter_call" then
          println (nl ++ nl ++ "[Running analysis...]") ;;;
          ret full_text
        else ret full_text
    | None => ret full_text
    end
  else if type ev =? "response.completed" then
    update (set_conversation_id (Some (id (response ev)))) ;;;
    ret full_text
  else ret full_text.

Definition _stream_response (c : client) (query instructions : string)
           (tools : list tool) (model : string)
  : M (@St InvestmentAdvisor) string :=
  println (nl ++ str_mul "=" 60) ;;;
  println ("Query: " ++ query) ;;;
  println (str_mul "=" 60) ;;;
  print "Investment Advisor: " "" ;;;
  a <- self ;;
  let req := advisor_request a query instructions tools model true in
  stream <- remote (call_responses_create req)
                   (responses_create_stream c req) ;;
  full_text <- for_event stream stream_body [] ;;
  println (nl ++ str_mul "=" 60) ;;;
  ret (join full_text).

Definition _sync_response (c : client) (query instructions : string)
           (tools : list tool) (model : string)
  : M (@St InvestmentAdvisor) string :=
  a <- self ;;
  let req := advisor_request a query instructions tools model false in
  response <- remote (call_responses_create req)
                     (responses_create c req) ;;
  update (set_conversation_id (Some (id response))) ;;;
  lift (last_output_text response).

Definition instructions : string :=
  "You are a professional investment advisor with expertise in:
        - Portfolio diversification and risk management
        - Market analysis and trends
        - Asset allocation strategies
        - Financial planning and retirement savings
        - Stock, bond, ETF, and mutual fund analysis

        Guidelines:
        - Provide data-driven insights when possible
        - Use code interpreter to perform calculations and create visualizations
        - Always include risk disclaimers
        - Explain your reasoning clearly
        - Consider the user's risk tolerance and investment timeline
        - Suggest diversified portfolios when appropriate

        IMPORTANT DISCLAIMER: Always remind users that this is educational information,
        not professional financial advice. Users should consult with licensed financial
        advisors before making investment decisions.".

Definition get_investment_suggestion (c : client) (query model : string)
           (use_code_interpreter stream : bool)
  : M (@St InvestmentAdvisor) string :=
  let tools :=
    if use_code_interpreter then [code_interpreter "auto"] else [] in
  if stream then _stream_response c query instructions tools model
  else _sync_response c query instructions tools model.

Definition reset_conversation : M (@St InvestmentAdvisor) unit :=
  update (set_conversation_id None) ;;;
  println "Conversation reset.".

End Demo2.

(* ================================================================== *)
(** * claude-code-examples/personal_assistant/main.py: function tools *)
(* ================================================================== *)

Module PersonalAssistant.

Section Tools.
(** The state the tools run in (clock, random generator) and the
    library calls their bodies make:
    [pytz.timezone], [datetime.now(tz).strftime('%Y-%m-%d %H:%M:%S %Z')],
    [eval(expression, {"__builtins__": {}}, allowed_names)] followed by
    the formatting of its value, [random.randint] and [random.choice].
    The calls that can raise are [pytz.timezone] and [eval]. *)
Variable W : Type.
Variable tzinfo : Type.
Variable pytz_timezone : string -> M W tzinfo.
Variable datetime_now_strftime : tzinfo -> W -> string * W.
Variable eval_str : string -> M W string.
Variable random_randint : nat -> nat -> W -> string * W.
Variable random_choice : list string -> W -> string * W.

Definition get_current_time (timezone : string) : M W string :=
  try_except
    (tz <- pytz_timezone timezone ;;
     current_time <- step (datetime_now_strftime tz) ;;
     ret ("Current time in " ++ timezone ++ ": " ++ current_time))
    UnknownTimeZoneError
    (fun _ =>
       ret ("Unknown timezone: " ++ timezone
            ++ ". Please use a valid timezone name.")).

Definition calculate (expression : string) : M W string :=
  try_except
    (result <- eval_str expression ;;
     ret (expression ++ " = " ++ result))
    Exception
    (fun e => ret ("Error calculating expression: " ++ str e)).


End Tools.

End PersonalAssistant.

(* ================================================================== *)
(** * The tool loop of the orchestration design                       *)
(* ================================================================== *)

Module Orchestration.

(** Modelled from the spec: the kind of a tool (section 3), LOCAL for a
    tool run in-process, REMOTE for one run by the service. *)
Inductive kind : Type := LOCAL | REMOTE.

(** Modelled from the spec: the repository has no tool registry of its
    own (tools are handed to the agent SDK as a list); section 3 gives a
    tool a unique name, a kind and, for LOCAL tools, a handler
    [(args) -> string | error]. *)
Record Tool : Type :=
  { name : string;
    tool_kind : kind;
    handler : option (string -> string + string) }.

(** Modelled from the spec: the registry (section 4.1) as the list of
    its tools in registration order. *)
Definition ToolRegistry : Type := list Tool.

(** Modelled from the spec: the part of the error taxonomy of section 7
    that the tool loop can meet. *)
Inductive error : Type :=
| UnknownToolError
| NotLocalError
| ToolExecutionError (toolName cause : string)
| StreamError (message : string)
| ToolLoopExceededError.

(** Modelled from the spec: look a tool up by its name. *)
Fixpoint lookup (reg : ToolRegistry) (n : string) : option Tool :=
  match reg with
  | [] => None
  | t :: rest => if name t =? n then Some t else lookup rest n
  end.

(** Modelled from the spec: [ToolRegistry.invokeLocal] of section 4.1,
    absent from the sources. *)
Definition invokeLocal (reg : ToolRegistry) (n args : string)
  : error + string :=
  match lookup reg n with
  | None => inl UnknownToolError
  | Some t =>
      match tool_kind t, handler t with
      | LOCAL, Some h =>
          match h args with
          | inl out => inr out
          | inr cause => inl (ToolExecutionError n cause)
          end
      | _, _ => inl NotLocalError
      end
  end.

(** Modelled from the spec: a tool call the service asks for, keyed by
    its call id (section 4.4, step 3). *)
Record ToolCall : Type :=
  { callId : string; toolName : string; args : string }.

(** Modelled from the spec: the result of folding one reply (section 3);
    of its tool calls only the one the service is paused on matters to
    the loop, as [awaiting]. *)
Record AggregationResult : Type :=
  { finalText : string;
    turnId : option string;
    failed : bool;
    awaiting : option ToolCall }.

(** Modelled from the spec: a transcript entry and the conversation
    state of section 3. *)
Record Turn : Type :=
  { utterance : string; responseText : string; turn_id : option string }.

Record ConversationState : Type :=
  { lastTurnId : option string; transcript : list Turn }.

(** Modelled from the spec: [ConversationState.recordTurn] of section
    4.2, absent from the sources. *)
Definition recordTurn (st : ConversationState) (u : string)
           (r : AggregationResult) : ConversationState :=
  {| lastTurnId := if failed r then lastTurnId st else turnId r;
     transcript := transcript st ++
                   [{| utterance := u; responseText := finalText r;
                       turn_id := turnId r |}] |}.

Section Loop.
(** The remote service seen through the aggregator: the result of
    folding the reply to the first request, and to a continuation
    request that carries a tool output keyed by call id.  The last
    argument is the pending request context: the calls answered so
    far in this run, latest first.  [awaiting r] is the service's
    signal that it paused for the output of a tool call. *)
Variable submitTurn : string -> option string -> AggregationResult.
Variable submitToolResult :
  string -> string -> option string -> list (ToolCall * string) ->
  AggregationResult.
Variable registry : ToolRegistry.
Variable max_depth : nat.

(** Modelled from the spec: the propagation policy of section 7.  A
    handler fault becomes the textual result fed back to the service; a
    call that cannot be dispatched aborts the run. *)
Definition tool_output (c : ToolCall) : error + string :=
  match invokeLocal registry (toolName c) (args c) with
  | inr out => inr out
  | inl (ToolExecutionError _ cause) => inr cause
  | inl e => inl e
  end.

(** Modelled from the spec: steps 2-3 of [OrchestrationLoop.run]
    (section 4.4), absent from the sources (the demos leave the tool
    loop to the SDK's [Runner.run]).  [depth] is the number of
    continuation rounds still allowed; the second component is the
    list of tool calls executed, latest first. *)
Fixpoint tool_loop (depth : nat) (prev : option string)
         (done : list (ToolCall * string)) (r : AggregationResult)
  : (error + AggregationResult) * list (ToolCall * string) :=
  match awaiting r with
  | None => (inr r, done)
  | Some c =>
      if failed r then (inr r, done)
      else
        match depth with
        | O => (inl ToolLoopExceededError, done)
        | S depth' =>
            match tool_output c with
            | inl e => (inl e, done)
            | inr out =>
                let done' := (c, out) :: done in
                tool_loop depth' prev done'
                          (submitToolResult (callId c) out prev done')
            end
        end
  end.

(** Modelled from the spec: [OrchestrationLoop.run] of section 4.4.
    Returns the outcome, the conversation state after the run and the
    tool calls executed. *)
Definition run (st : ConversationState) (u : string)
  : (error + AggregationResult) * ConversationState
    * list (ToolCall * string) :=
  let prev := lastTurnId st in
  match tool_loop max_depth prev [] (submitTurn u prev) with
  | (inr r, done) => (inr r, recordTurn st u r, done)
  | (inl e, done) => (inl e, st, done)
  end.
End Loop.

(** Modelled from the spec: the service insists when its result [r] is
    not a failure and is a pause for a tool call that the registry can
    run. *)
Definition insists (registry : ToolRegistry) (r : AggregationResult)
  : Prop :=
  failed r = false
  /\ exists c out, awaiting r = Some c /\ tool_output registry c = inr out.

End Orchestration.

(* ================================================================== *)
(** * Reading the loops: aggregation results and sessions             *)
(* ================================================================== *)

Module Aggregation.

(** What a streaming loop leaves behind once the stream has ended. *)
Record AggregationResult : Type :=
  { finalText : string; turnId : option string }.

Definition is_text_delta (ev : event) : bool :=
  type ev =? "response.output_text.delta".

Definition is_completed (ev : event) : bool :=
  type ev =? "response.completed".

Definition is_output_item_added (ev : event) : bool :=
  type ev =? "response.output_item.added".

(** The event kinds the loop of demo 1 has a branch for, and those of
    demo 2. *)
Definition recognized1 (ev : event) : bool :=
  is_text_delta ev || is_completed ev.

Definition recognized2 (ev : event) : bool :=
  is_text_delta ev || is_output_item_added ev || is_completed ev.

(** The payloads of the text deltas of a stream, in arrival order. *)
Definition deltas (evs : list event) : list string :=
  map delta (filter is_text_delta evs).

(** The response ids of the completed events, in arrival order. *)
Definition completed_ids (evs : list event) : list string :=
  map (fun ev => id (response ev)) (filter is_completed evs).

(** Demo 1: the loop of [search_streaming] run on its own, from its
    initial locals, with the observer [obs]. *)
Definition run_loop1 (obs : string -> world -> world) (evs : list event)
           (st : @St Demo1.PDFSearchAssistant)
  : result Demo1.locals * @St Demo1.PDFSearchAssistant :=
  for_in evs (Demo1.stream_body obs) ([], None) st.

Definition result_of_locals (r : result Demo1.locals)
  : option AggregationResult :=
  match r with
  | Return l => Some {| finalText := join (fst l); turnId := snd l |}
  | Raise _ => None
  end.

Definition aggregate_with (obs : string -> world -> world)
           (evs : list event) : option AggregationResult :=
  result_of_locals (fst (run_loop1 obs evs (Demo1.__init__, empty_world))).

Definition aggregate : list event -> option AggregationResult :=
  aggregate_with Demo1.print_delta.

(** Demo 2: the loop of [_stream_response] run on its own; its result is
    the text and the [conversation_id] it leaves in the advisor. *)
Definition run_loop2 (evs : list event) (st : @St Demo2.InvestmentAdvisor)
  : result (list string) * @St Demo2.InvestmentAdvisor :=
  for_in evs Demo2.stream_body [] st.

Definition aggregate2 (prev : option string) (evs : list event)
  : option AggregationResult :=
  match run_loop2 evs ({| Demo2.conversation_id := prev |}, empty_world) with
  | (Return full_text, (a, _)) =>
      Some {| finalText := join full_text;
              turnId := Demo2.conversation_id a |}
  | (Raise _, _) => None
  end.

(** The id recorded after a stream: that of its last completed event,
    else the one held before. *)
Definition latest (ids : list string) (cur : option string)
  : option string :=
  match Py.last ids with
  | Some i => Some i
  | None => cur
  end.

(** The observer applied to each delta in turn. *)
Definition observe_all (obs : string -> world -> world)
           (ds : list string) (w : world) : world :=
  fold_left (fun w d => obs d w) ds w.

(** What the loop of demo 2 prints for one event, and for a stream. *)
Definition echo2 (w : world) (ev : event) : world :=
  if is_text_delta ev then write (delta ev ++ "") w
  else if is_output_item_added ev then
    match item ev with
    | Some it =>
        if item_type it =? "code_interpreter_call"
        then write ((nl ++ nl ++ "[Running analysis...]") ++ nl) w
        else w
    | None => w
    end
  else w.

(** The world when the loop of [search_streaming] starts: the header is
    printed and the request is issued; and what is printed after the
    loop. *)
Definition preamble1 (query : string) (req : request) (w : world)
  : world :=
  log (call_responses_create req)
      (write ("Response: " ++ "")
             (write (str_mul "=" 60 ++ nl)
                    (write ((nl ++ "Searching: " ++ query) ++ nl) w))).

Definition closing (w : world) : world :=
  write ((nl ++ str_mul "=" 60) ++ nl) w.

(** The same for [_stream_response]. *)
Definition preamble2 (query : string) (req : request) (w : world)
  : world :=
  log (call_responses_create req)
      (write ("Investment Advisor: " ++ "")
             (write (str_mul "=" 60 ++ nl)
                    (write (("Query: " ++ query) ++ nl)
                           (write ((nl ++ str_mul "=" 60) ++ nl) w)))).

(** The world when [search] has issued its request. *)
Definition preamble0 (query : string) (req : request) (w : world)
  : world :=
  log (call_responses_create req)
      (write (str_mul "=" 60 ++ nl)
             (write ((nl ++ "Searching: " ++ query) ++ nl) w)).

End Aggregation.

Module Session.

Import Demo1 Aggregation.

(** One user turn of demo 1, with the service's behaviour during it. *)
Inductive turn : Type :=
| Search (c : client) (query model : string)
| SearchStreaming (c : client) (query model : string).

Definition run_turn (t : turn) : M (@St PDFSearchAssistant) unit :=
  match t with
  | Search c q m => search c q m ;;; ret tt
  | SearchStreaming c q m => search_streaming c q m
  end.

(** The turn id of the aggregation result of a turn started in state
    [a]: the id of the response object, or what the loop made of the
    stream. *)
Definition issued_turn_id (t : turn) (a : PDFSearchAssistant)
  : option string :=
  match t with
  | Search c q m =>
      match responses_create c (search_request a q m false) with
      | Return r => Some (id r)
      | Raise _ => None
      end
  | SearchStreaming c q m =>
      match responses_create_stream c (search_request a q m true) with
      | Return s =>
          match aggregate (events s) with
          | Some r => turnId r
          | None => None
          end
      | Raise _ => None
      end
  end.

(** A session: the turns run one after the other on the same object,
    stopping at the first that raises; the result lists the turn ids in
    order. *)
Fixpoint run_session (ts : list turn)
  : M (@St PDFSearchAssistant) (list (option string)) :=
  match ts with
  | [] => ret []
  | t :: rest =>
      a <- self ;;
      run_turn t ;;;
      ids <- run_session rest ;;
      ret (issued_turn_id t a :: ids)
  end.

(** The turn id of the last turn of a session, [None] if there was no
    turn (and also when the last turn carried none). *)
Definition last_turn_id (ids : list (option string)) : option string :=
  match Py.last ids with
  | Some i => i
  | None => None
  end.

End Session.

(* ================================================================== *)
(** * Concrete services and streams used in the examples              *)
(* ================================================================== *)

Module Examples.

Import Demo1.

Definition message (t : string) : output_item :=
  {| item_type := "message"; content := Some [{| text := t |}] |}.

Definition reply (i t : string) : response_obj :=
  {| id := i; output := [message t] |}.

(** A service that answers every request with response [i] carrying the
    text [t], streamed as the events [evs]. *)
Definition service (i t : string) (evs : list event) : client :=
  {| responses_create := fun _ => Return (reply i t);
     responses_create_stream :=
       fun _ => Return {| events := evs; interrupted := None |};
     vector_stores_create := fun _ => Return "vs_1";
     files_create := fun _ => Return "file_1";
     vector_stores_files_create := fun _ _ => Return tt |}.

(** A service whose stream breaks after the events [evs]. *)
Definition broken_service (evs : list event) (e : exn) : client :=
  {| responses_create := fun _ => Raise e;
     responses_create_stream :=
       fun _ => Return {| events := evs; interrupted := Some e |};
     vector_stores_create := fun _ => Raise e;
     files_create := fun _ => Raise e;
     vector_stores_files_create := fun _ _ => Raise e |}.

Definition ready : PDFSearchAssistant :=
  {| vector_store_id := Some "vs_1"; conversation_history := [] |}.

Definition after_one_turn : PDFSearchAssistant :=
  {| vector_store_id := Some "vs_1";
     conversation_history :=
       [{| query := "q0"; response := "r0"; response_id := Some "resp_1" |}] |}.

Definition connection_lost : exn :=
  mkExn (OtherError "APIConnectionError") "Connection error.".

(** A session of two turns: a plain search answered by [resp_1], then a
    streamed one completed as [resp_2]. *)
Definition two_turns : list Session.turn :=
  [Session.Search (service "resp_1" "first answer" []) "q1" "gpt-4o-mini";
   Session.SearchStreaming
     (service "resp_2" "ab"
              [TextDelta "a"; TextDelta "b"; TurnCompleted "resp_2"])
     "q2" "gpt-4o-mini"].




(** A remote search tool, which has no handler. *)
Definition web_search : Orchestration.Tool :=
  {| Orchestration.name := "web_search";
     Orchestration.tool_kind := Orchestration.REMOTE;
     Orchestration.handler := None |}.



(** A registry with one LOCAL tool and a service that asks for it again
    after every answer. *)
Definition calc : Orchestration.Tool :=
  {| Orchestration.name := "calc";
     Orchestration.tool_kind := Orchestration.LOCAL;
     Orchestration.handler := Some (fun args => inl ("= " ++ args)) |}.

Definition asks_again : Orchestration.AggregationResult :=
  {| Orchestration.finalText := "";
     Orchestration.turnId := None;
     Orchestration.failed := false;
     Orchestration.awaiting :=
       Some {| Orchestration.callId := "call_1";
               Orchestration.toolName := "calc";
               Orchestration.args := "2+2" |} |}.

End Examples.

(* ================================================================== *)
(** * demo_1_pdf_search.py: cleanup and main                          *)
(* ================================================================== *)

Module Demo1Ext.

Import Demo1.

(** How an [Optional[str]] is shown inside an f-string. *)
Definition show (o : option string) : string :=
  match o with
  | Some s => s
  | None => "None"
  end.

(** A library call that acts on the world outside the object and may
    raise. *)
Definition in_world {Self A} (f : world -> result A * world)
  : M (@St Self) A :=
  fun st => (fst (f (snd st)), (fst st, snd (f (snd st)))).

(** [cleanup]; [vector_stores_delete] is [self.client.vector_stores.delete]. *)
Definition cleanup
           (vector_stores_delete : option string -> world -> result unit * world)
  : M (@St PDFSearchAssistant) unit :=
  a <- self ;;
  if truthy (vector_store_id a) then
    try_except
      (in_world (vector_stores_delete (vector_store_id a)) ;;;
       println ("✓ Cleaned up vector store: " ++ show (vector_store_id a)))
      Exception
      (fun e => println ("✗ Error cleaning up: " ++ str e))
  else ret tt.

(** What [main] runs in: the outcome of [OpenAI(api_key=api_key)] when
    an object is created (it raises when no key is configured), the
    service as it answers the n-th remote call of the run, the file
    system, the deletion call, and the string methods [str.strip] and
    [str.lower]. *)
Record env : Type :=
  { new_client : result unit;
    service_at : nat -> client;
    path_exists : string -> bool;
    open_rb : string -> result unit;
    vector_stores_delete : option string -> world -> result unit * world;
    strip : string -> string;
    lower : string -> string }.

(** A method call made through [self.client] at this point of the run. *)
Definition calling {Self A} (E : env) (f : client -> M (@St Self) A)
  : M (@St Self) A :=
  fun st => f (service_at E (length (remote_log (snd st)))) st.

Definition pdf_files : list string :=
  ["./notebooks/assets-resources/pdfs/future_agents.pdf";
   "./notebooks/assets-resources/pdfs/attention_paper.pdf"].

Definition queries : list string :=
  ["What is the main topic of these papers?";
   "Explain the attention mechanism in simple terms";
   "What are the key findings about the future of agents?"].

(** [s in ['quit', 'exit', 'q']] *)
Definition is_quit (s : string) : bool :=
  existsb (String.eqb s) ["quit"; "exit"; "q"].

(** The [while True] loop of [main] (lines 253-266) on the lines the
    user types; [input] raises [EOFError] when they run out. *)
Fixpoint interactive (E : env) (stdin : list string)
  : M (@St PDFSearchAssistant) unit :=
  match stdin with
  | [] =>
      print (nl ++ "Your question: ") "" ;;;
      raise (OtherError "EOFError") "EOF when reading a line"
  | line :: rest =>
      print (nl ++ "Your question: ") "" ;;;
      let user_query := strip E line in
      if is_quit (lower E user_query) then println (nl ++ "Exiting...")
      else if negb (truthy (Some user_query)) then interactive E rest
      else
        try_except
          (calling E (fun c => search_streaming c user_query "gpt-4o-mini"))
          Exception
          (fun e => println ("Error: " ++ str e)) ;;;
        interactive E rest
  end.

(** The body of [main]; the assistant it creates is the object of the
    state, and [lift (new_client E)] stands where the source creates it. *)
Definition main_body (E : env) (stdin : list string)
  : M (@St PDFSearchAssistant) unit :=
  println (str_mul "=" 60) ;;;
  println "PDF Document Search Demo" ;;;
  println "Using OpenAI Responses API with File Search" ;;;
  println (str_mul "=" 60) ;;;
  lift (new_client E) ;;;
  calling E (fun c => create_vector_store c "Research Papers Store") ;;;
  println (nl ++ "Uploading documents...") ;;;
  for_in pdf_files
         (fun pdf_file _ =>
            if path_exists E pdf_file then
              calling E (fun c => upload_pdf c (open_rb E) pdf_file) ;;;
              ret tt
            else println ("⚠ File not found: " ++ pdf_file))
         tt ;;;
  println (nl ++ str_mul "=" 60) ;;;
  println "Documents uploaded and ready for search!" ;;;
  println (str_mul "=" 60) ;;;
  println (nl ++ "Running example searches..." ++ nl) ;;;
  for_in queries
         (fun query _ =>
            calling E (fun c => search_streaming c query "gpt-4o-mini") ;;;
            println "")
         tt ;;;
  println (nl ++ str_mul "=" 60) ;;;
  println "Interactive Mode - Type 'quit' to exit" ;;;
  println (str_mul "=" 60) ;;;
  interactive E stdin ;;;
  println (nl ++ "Cleaning up resources...") ;;;
  cleanup (vector_stores_delete E) ;;;
  println "Done!".

(** A function whose object is a local variable: it starts from [init]
    and only the world is left afterwards. *)
Definition with_object {Self A} (init : Self) (m : M (@St Self) A)
  : M world A :=
  fun w => (fst (m (init, w)), snd (snd (m (init, w)))).

Definition main (E : env) (stdin : list string) : M world unit :=
  with_object __init__ (main_body E stdin).

End Demo1Ext.

(* ================================================================== *)
(** * demo_2_investment_advisor.py: the query helpers and main        *)
(* ================================================================== *)

Module Demo2Ext.

Import Demo2 Demo1Ext.

(** [d.get(k, default)] on a dict given as its items, each value as
    [str] shows it. *)
Definition dict_get (d : list (string * string)) (k default : string)
  : string :=
  match find (fun kv => fst kv =? k) d with
  | Some kv => snd kv
  | None => default
  end.

Definition portfolio_query (portfolio_data : list (string * string))
  : string :=
  "Please analyze this investment portfolio and provide suggestions:

Portfolio Details:
- Age: " ++ dict_get portfolio_data "age" "Not specified" ++ "
- Risk Tolerance: " ++ dict_get portfolio_data "risk_tolerance" "Moderate" ++ "
- Investment Timeline: " ++ dict_get portfolio_data "timeline" "Not specified" ++ "
- Current Holdings: " ++ dict_get portfolio_data "holdings" "Not specified" ++ "
- Investment Goals: " ++ dict_get portfolio_data "goals" "Not specified" ++ "

Please provide:
1. Analysis of current allocation
2. Risk assessment
3. Diversification recommendations
4. Suggested adjustments (if any)
5. Expected return projections (with visualizations if helpful)".

Definition analyze_portfolio (c : client)
           (portfolio_data : list (string * string)) (model : string)
  : M (@St InvestmentAdvisor) string :=
  get_investment_suggestion c (portfolio_query portfolio_data) model true true.

Definition comparison_query (investment_options : list string)
           (criteria : string) : string :=
  let options_str :=
    String.concat nl (map (fun option => "- " ++ option) investment_options) in
  "Please compare these investment options based on " ++ criteria ++ ":

" ++ options_str ++ "

Provide:
1. Side-by-side comparison
2. Pros and cons of each option
3. Risk analysis
4. Historical performance (if applicable)
5. Recommendation based on different investor profiles
6. Use visualizations to illustrate key differences".

Definition compare_investments (c : client)
           (investment_options : list string) (criteria model : string)
  : M (@St InvestmentAdvisor) string :=
  get_investment_suggestion c (comparison_query investment_options criteria)
                            model true true.

Definition outlook_query (sector : string) : string :=
  "Provide a market outlook analysis for " ++ sector ++ ":

Please include:
1. Current market conditions
2. Key trends and drivers
3. Potential risks and opportunities
4. Investment strategies for current conditions
5. Sector-specific recommendations (if applicable)

Note: Focus on general principles and educational insights rather than specific stock picks.".

Definition market_outlook (c : client) (sector model : string)
  : M (@St InvestmentAdvisor) string :=
  get_investment_suggestion c (outlook_query sector) model true true.

(** The [while True] loop of [main] (lines 267-284). *)
Fixpoint interactive (E : env) (stdin : list string)
  : M (@St InvestmentAdvisor) unit :=
  match stdin with
  | [] =>
      print (nl ++ "Your question: ") "" ;;;
      raise (OtherError "EOFError") "EOF when reading a line"
  | line :: rest =>
      print (nl ++ "Your question: ") "" ;;;
      let user_input := strip E line in
      if is_quit (lower E user_input) then
        println (nl ++ "Thank you for using Investment Advisor!")
      else if lower E user_input =? "reset" then
        reset_conversation ;;;
        interactive E rest
      else if negb (truthy (Some user_input)) then interactive E rest
      else
        try_except
          (calling E (fun c =>
                        get_investment_suggestion c user_input "gpt-4o"
                                                  true true) ;;;
           ret tt)
          Exception
          (fun e => println (nl ++ "Error: " ++ str e)) ;;;
        interactive E rest
  end.

Definition portfolio : list (string * string) :=
  [("age", "35");
   ("risk_tolerance", "Moderate to Aggressive");
   ("timeline", "25-30 years until retirement");
   ("holdings", "60% stocks (S&P 500 index), 30% bonds, 10% cash");
   ("goals", "Retirement savings, aiming for $2M by age 65")].

Definition investment_options : list string :=
  ["S&P 500 Index Fund (VOO)";
   "Total Bond Market Fund (BND)";
   "Real Estate Investment Trust (VNQ)";
   "Technology Sector ETF (XLK)"].

(** The body of [main]; the advisor it creates is the object of the
    state, and [lift (new_client E)] stands where the source creates it. *)
Definition main_body (E : env) (stdin : list string)
  : M (@St InvestmentAdvisor) unit :=
  println (str_mul "=" 60) ;;;
  println "Investment Suggestion Generator Demo" ;;;
  println "Using OpenAI Responses API with Code Interpreter" ;;;
  println (str_mul "=" 60) ;;;
  println (nl ++ "⚠️  DISCLAIMER: This is for educational purposes only.") ;;;
  println "Not professional financial advice. Consult licensed advisors." ;;;
  println (str_mul "=" 60) ;;;
  lift (new_client E) ;;;
  println (nl ++ nl ++ "### Example 1: General Investment Advice") ;;;
  calling E (fun c =>
               get_investment_suggestion c
                 "I'm 30 years old with moderate risk tolerance. How should I allocate $10,000 for retirement?"
                 "gpt-4o" true true) ;;;
  println (nl ++ nl ++ "### Example 2: Portfolio Analysis") ;;;
  calling E (fun c => analyze_portfolio c portfolio "gpt-4o") ;;;
  println (nl ++ nl ++ "### Example 3: Investment Comparison") ;;;
  calling E (fun c =>
               compare_investments c investment_options
                 "risk-adjusted returns for a 10-year investment horizon"
                 "gpt-4o") ;;;
  println (nl ++ nl ++ "### Example 4: Market Outlook") ;;;
  calling E (fun c => market_outlook c "technology sector" "gpt-4o") ;;;
  println (nl ++ nl ++ str_mul "=" 60) ;;;
  println "Interactive Mode - Ask your investment questions!" ;;;
  println "Commands: 'quit' to exit, 'reset' to start new conversation" ;;;
  println (str_mul "=" 60) ;;;
  interactive E stdin ;;;
  println (nl ++ str_mul "=" 60) ;;;
  println "Remember: Always consult with licensed financial advisors" ;;;
  println "before making investment decisions!" ;;;
  println (str_mul "=" 60).

Definition main (E : env) (stdin : list string) : M world unit :=
  with_object __init__ (main_body E stdin).

End Demo2Ext.

(* ================================================================== *)
(** * test_demos.py                                                   *)
(* ================================================================== *)

Module TestDemos.

Import Demo1Ext.

(** What the test script runs in: the environment of the demos, the
    value of [os.getenv("OPENAI_API_KEY")] and the slice [s[:n]]. *)
Record test_env : Type :=
  { demo_env : env;
    OPENAI_API_KEY : option string;
    slice_to : nat -> string -> string }.

Definition test_pdf : string :=
  "./notebooks/assets-resources/pdfs/attention_paper.pdf".

Definition test_pdf_search_body (E : env)
  : M (@St Demo1.PDFSearchAssistant) bool :=
  println (str_mul "=" 60) ;;;
  println "Testing Demo 1: PDF Document Search" ;;;
  println (str_mul "=" 60) ;;;
  try_except
    (lift (new_client E) ;;;
     calling E (fun c => Demo1.create_vector_store c "Test PDF Store") ;;;
     if path_exists E test_pdf then
       calling E (fun c => Demo1.upload_pdf c (open_rb E) test_pdf) ;;;
       println (nl ++ "Running test query...") ;;;
       response <- calling E (fun c =>
                                Demo1.search c
                                  "What is this paper about in one sentence?"
                                  "gpt-4o-mini") ;;
       println (nl ++ "Response: " ++ response ++ nl) ;;;
       cleanup (vector_stores_delete E) ;;;
       println "✓ Demo 1 test passed!" ;;;
       ret true
     else
       println ("✗ Test PDF not found: " ++ test_pdf) ;;;
       ret false)
    Exception
    (fun e =>
       println ("✗ Demo 1 test failed: " ++ str e) ;;;
       ret false).

Definition test_pdf_search (E : env) : M world bool :=
  with_object Demo1.__init__ (test_pdf_search_body E).

Definition test_investment_advisor_body (T : test_env)
  : M (@St Demo2.InvestmentAdvisor) bool :=
  println (nl ++ str_mul "=" 60) ;;;
  println "Testing Demo 2: Investment Advisor" ;;;
  println (str_mul "=" 60) ;;;
  try_except
    (lift (new_client (demo_env T)) ;;;
     println (nl ++ "Running test query...") ;;;
     response <- calling (demo_env T)
                   (fun c =>
                      Demo2.get_investment_suggestion c
                        "What are the key principles of portfolio diversification? Keep it brief."
                        "gpt-4o-mini" false false) ;;
     println (nl ++ "Response preview: " ++ slice_to T 200 response
                 ++ "..." ++ nl) ;;;
     println "✓ Demo 2 test passed!" ;;;
     ret true)
    Exception
    (fun e =>
       println ("✗ Demo 2 test failed: " ++ str e) ;;;
       ret false).

Definition test_investment_advisor (T : test_env) : M world bool :=
  with_object Demo2.__init__ (test_investment_advisor_body T).

(** [print] outside any object. *)
Definition echo (s : string) : M world unit := modify (write (s ++ nl)).

(** [all(result[1] for result in results)] *)
Definition all_passed (results : list (string * bool)) : bool :=
  forallb snd results.

Definition main (T : test_env) : M world unit :=
  echo (nl ++ str_mul "=" 60) ;;;
  echo "DEMO APPLICATION TESTS" ;;;
  echo (str_mul "=" 60) ;;;
  echo (nl ++ "Note: These tests require OPENAI_API_KEY to be set") ;;;
  echo (str_mul "=" 60 ++ nl) ;;;
  if negb (truthy (OPENAI_API_KEY T)) then
    echo "⚠️  WARNING: OPENAI_API_KEY not set!" ;;;
    echo "Set it with: export OPENAI_API_KEY='your-key-here'"
  else
    r1 <- test_pdf_search (demo_env T) ;;
    r2 <- test_investment_advisor T ;;
    let results :=
      [("PDF Search Demo", r1); ("Investment Advisor Demo", r2)] in
    echo (nl ++ str_mul "=" 60) ;;;
    echo "TEST SUMMARY" ;;;
    echo (str_mul "=" 60) ;;;
    for_in results
           (fun np _ =>
              let status := if snd np then "✓ PASSED" else "✗ FAILED" in
              echo (fst np ++ ": " ++ status))
           tt ;;;
    echo (str_mul "=" 60) ;;;
    (if all_passed results
     then echo (nl ++ "🎉 All tests passed! Demos are ready to use.")
     else echo (nl ++ "⚠️  Some tests failed. Check errors above.")) ;;;
    echo (nl ++ "To run the full demos:") ;;;
    echo "  python demo_1_pdf_search.py" ;;;
    echo "  python demo_2_investment_advisor.py".

End TestDemos.

(* ================================================================== *)
(** * Reading the methods: steps, calls and sequences of calls        *)
(* ================================================================== *)

Module Observations.

Import Demo1 Demo1Ext.

(** The three steps of [upload_pdf] in order (open the file, create the
    remote file, attach it to the vector store): the file id when all
    succeed, else the first exception. *)
Definition upload_steps (c : client) (open_rb : string -> result unit)
           (a : PDFSearchAssistant) (file_path : string) : result string :=
  match open_rb file_path with
  | Raise e => Raise e
  | Return _ =>
      match files_create c file_path with
      | Raise e => Raise e
      | Return file_id =>
          match vector_stores_files_create c (vector_store_id a) file_id with
          | Raise e => Raise e
          | Return _ => Return file_id
          end
      end
  end.

(** The remote calls [upload_pdf] gets to issue. *)
Definition upload_calls (c : client) (open_rb : string -> result unit)
           (a : PDFSearchAssistant) (file_path : string) : list remote_call :=
  match open_rb file_path with
  | Raise _ => []
  | Return _ =>
      call_files_create file_path ::
      match files_create c file_path with
      | Raise _ => []
      | Return file_id =>
          [call_vector_stores_files_create (vector_store_id a) file_id]
      end
  end.

(** A call of one of the methods of [PDFSearchAssistant]. *)
Inductive op : Type :=
| CreateVectorStore (c : client) (name : string)
| UploadPdf (c : client) (open_rb : string -> result unit) (file_path : string)
| Search (c : client) (query model : string)
| SearchStreaming (c : client) (query model : string)
| Cleanup (delete : option string -> world -> result unit * world).

(** The state a call leaves, whether it returned or raised. *)
Definition exec (o : op) (st : @St PDFSearchAssistant)
  : @St PDFSearchAssistant :=
  match o with
  | CreateVectorStore c name => snd (create_vector_store c name st)
  | UploadPdf c open_rb file_path => snd (upload_pdf c open_rb file_path st)
  | Search c query model => snd (search c query model st)
  | SearchStreaming c query model => snd (search_streaming c query model st)
  | Cleanup delete => snd (cleanup delete st)
  end.

(** A caller that goes on after every call. *)
Definition exec_all (ops : list op) (st : @St PDFSearchAssistant)
  : @St PDFSearchAssistant :=
  fold_left (fun st o => exec o st) ops st.

Definition is_search (o : op) : bool :=
  match o with
  | Search _ _ _ | SearchStreaming _ _ _ => true
  | _ => false
  end.

Definition is_create (o : op) : bool :=
  match o with
  | CreateVectorStore _ _ => true
  | _ => false
  end.

(** The questions an interactive loop gets to ask: the stripped lines
    before the first quit command that are not blank. *)
Fixpoint questions (E : env) (stdin : list string) : list string :=
  match stdin with
  | [] => []
  | line :: rest =>
      if is_quit (lower E (strip E line)) then []
      else if negb (truthy (Some (strip E line))) then questions E rest
      else strip E line :: questions E rest
  end.

(** Some line is a quit command. *)
Definition quits (E : env) (stdin : list string) : bool :=
  existsb (fun line => is_quit (lower E (strip E line))) stdin.

(** The same environment with another deletion call. *)
Definition with_delete (E : env)
           (d : option string -> world -> result unit * world) : env :=
  {| new_client := new_client E;
     service_at := service_at E;
     path_exists := path_exists E;
     open_rb := open_rb E;
     vector_stores_delete := d;
     strip := strip E;
     lower := lower E |}.

(** An outcome that is no error: a value, or an exception that is not an
    instance of [Exception] (a [KeyboardInterrupt]). *)
Definition no_error {A} (r : result A) : Prop :=
  match r with
  | Return _ => True
  | Raise e => isinstance e Exception = false
  end.

(** A deletion call whose failures are errors. *)
Definition fails_with_errors
           (d : option string -> world -> result unit * world) : Prop :=
  forall o w e, fst (d o w) = Raise e -> isinstance e Exception = true.

End Observations.

(* ================================================================== *)
(** * Concrete environments used in the examples                      *)
(* ================================================================== *)

Module ExtExamples.

Import Demo1Ext TestDemos.

(** A run against one unchanging service [c], with every file present
    and readable, a deletion that succeeds, and a user who types clean
    lower-case lines. *)
Definition console_env (c : client) : env :=
  {| new_client := Return tt;
     service_at := fun _ => c;
     path_exists := fun _ => true;
     open_rb := fun _ => Return tt;
     vector_stores_delete := fun _ w => (Return tt, w);
     strip := fun s => s;
     lower := fun s => s |}.

(** The same with files that cannot be opened. *)
Definition unreadable_env (c : client) : env :=
  {| new_client := Return tt;
     service_at := fun _ => c;
     path_exists := fun _ => true;
     open_rb :=
       fun _ => Raise (mkExn (OtherError "PermissionError") "Permission denied");
     vector_stores_delete := fun _ w => (Return tt, w);
     strip := fun s => s;
     lower := fun s => s |}.

(** The same with no file on the disk. *)
Definition missing_env (c : client) : env :=
  {| new_client := Return tt;
     service_at := fun _ => c;
     path_exists := fun _ => false;
     open_rb := fun _ => Return tt;
     vector_stores_delete := fun _ w => (Return tt, w);
     strip := fun s => s;
     lower := fun s => s |}.

(** A deletion that leaves a mark on the console. *)
Definition marking_delete (o : option string) (w : world)
  : result unit * world :=
  (Return tt, write "deleted" w).

Definition answering : client :=
  Examples.service "resp_1" "An answer."
                   [TextDelta "An answer."; TurnCompleted "resp_1"].

Definition offline : client :=
  Examples.broken_service [] Examples.connection_lost.

Definition keyed (E : env) : test_env :=
  {| demo_env := E;
     OPENAI_API_KEY := Some "sk-test";
     slice_to := fun n s => substring 0 n s |}.

Definition unkeyed (E : env) : test_env :=
  {| demo_env := E;
     OPENAI_API_KEY := None;
     slice_to := fun n s => substring 0 n s |}.

End ExtExamples.

(* ================================================================== *)
(** * The streaming loop with a caller-supplied observer              *)
(* ================================================================== *)

Module Observer.

Import Demo1 Aggregation.

(** What a caller could hand to the loop in place of the print of line
    179: a call that is given the delta, may act on the console, the
    service and the assistant, and may raise. *)
Definition observer : Type := string -> M (@St PDFSearchAssistant) unit.










End Observer.

(* ================================================================== *)
(** * The full text of a response and its synthetic event list        *)
(* ================================================================== *)

Module Synthetic.

(** The text parts an output item carries; none for an item without
    [content]. *)
Definition texts_of (it : output_item) : list string :=
  match content it with
  | Some parts => map text parts
  | None => []
  end.

(** After the spec's words (section 4.3, [fullText]): the full text of a
    response object, the text of every content part of every output
    item in order.  To be compared with what the non-streaming path
    reads, [last_output_text]. *)
Definition full_text (r : response_obj) : string :=
  join (flat_map texts_of (output r)).





End Synthetic.

(* ================================================================== *)
(** * The rounds of the tool loop                                     *)
(* ================================================================== *)

Module Rounds.

Import Orchestration.

Section Service.
Variable submitTurn : string -> option string -> AggregationResult.
Variable submitToolResult :
  string -> string -> option string -> list (ToolCall * string) ->
  AggregationResult.
Variable registry : ToolRegistry.

(** Modelled from the spec: where a run stands between two rounds of
    step 3 of section 4.4, the tool calls answered so far (latest first)
    and the reply in hand. *)
Definition standing : Type :=
  (list (ToolCall * string) * AggregationResult)%type.

(** Modelled from the spec: the reply is a request for local tool
    execution, a pause for a tool call in a turn that has not failed. *)
Definition pauses (r : AggregationResult) : bool :=
  negb (failed r) &&
  match awaiting r with
  | Some _ => true
  | None => false
  end.

(** Modelled from the spec: one continuation round, the awaited call is
    run and its output submitted under its call id.  [None] when the
    reply in hand asks for nothing or the call cannot be dispatched. *)
Definition next_round (prev : option string) (x : standing)
  : option standing :=
  match awaiting (snd x) with
  | None => None
  | Some c =>
      if failed (snd x) then None
      else
        match tool_output registry c with
        | inl _ => None
        | inr out =>
            let done' := (c, out) :: fst x in
            Some (done', submitToolResult (callId c) out prev done')
        end
  end.

(** Where the run stands after [k] continuation rounds, if it gets that
    far. *)
Fixpoint after_rounds (k : nat) (prev : option string) (x : standing)
  : option standing :=
  match k with
  | O => Some x
  | S k' =>
      match next_round prev x with
      | None => None
      | Some y => after_rounds k' prev y
      end
  end.

Definition asks_after (k : nat) (prev : option string) (x : standing)
  : bool :=
  match after_rounds k prev x with
  | Some y => pauses (snd y)
  | None => false
  end.

(** Modelled from the spec: in the run started by utterance [u] the
    service requests local tool execution beyond the bound [n], its
    reply to the first request and to each of the [n] continuations
    that follow is again such a request. *)
Definition asks_beyond (n : nat) (st : ConversationState) (u : string)
  : bool :=
  asks_after n (lastTurnId st) ([], submitTurn u (lastTurnId st)).

End Service.

(** A final answer, and a service that asks for the calculator on its
    first three replies of a run and answers on the fourth. *)
Definition four : AggregationResult :=
  {| finalText := "4"; turnId := Some "t1"; failed := false;
     awaiting := None |}.

Definition asks_three_times (_ _ : string) (_ : option string)
           (done : list (ToolCall * string)) : AggregationResult :=
  if Nat.ltb (List.length done) 3 then Examples.asks_again else four.

End Rounds.

(* ================================================================== *)
(** * Facts about strings and lists                                   *)
(* ================================================================== *)

Section StringFacts.

Lemma append_nil_r (s : string) : s ++ "" = s.
Proof. induction s as [|c s IH]; simpl; [reflexivity | now rewrite IH]. Qed.

Lemma append_assoc (s t u : string) : (s ++ t) ++ u = s ++ (t ++ u).
Proof. induction s as [|c s IH]; simpl; [reflexivity | now rewrite IH]. Qed.

Lemma join_cons (x : string) (xs : list string) :
  join (x :: xs) = x ++ join xs.
Proof.
  unfold join. destruct xs as [|y ys]; simpl.
  - now rewrite append_nil_r.
  - reflexivity.
Qed.

Lemma join_app (l1 l2 : list string) :
  join (l1 ++ l2)%list = join l1 ++ join l2.
Proof.
  induction l1 as [|x l1 IH].
  - reflexivity.
  - rewrite <- app_comm_cons, !join_cons, IH. now rewrite append_assoc.
Qed.

Lemma join_fold_right (l : list string) :
  join l = fold_right String.append "" l.
Proof.
  induction l as [|x l IH]; [reflexivity|].
  rewrite join_cons, IH. reflexivity.
Qed.

Lemma last_snoc {A} (l : list A) (x : A) : Py.last (l ++ [x])%list = Some x.
Proof.
  induction l as [|y l IH]; [reflexivity|].
  simpl. destruct (l ++ [x])%list eqn:E.
  - destruct l; discriminate.
  - exact IH.
Qed.

Lemma last_app_cons {A} (l1 l2 : list A) (x : A) :
  Py.last (l1 ++ x :: l2)%list = Py.last (x :: l2).
Proof.
  induction l1 as [|y l1 IH]; [reflexivity|].
  simpl (Py.last ((y :: l1) ++ x :: l2)%list).
  destruct (l1 ++ x :: l2)%list eqn:E.
  - destruct l1; discriminate.
  - exact IH.
Qed.

End StringFacts.

(* ================================================================== *)
(** * The model on concrete inputs                                    *)
(* ================================================================== *)

Section Runs.

Import Demo1 Aggregation Examples.

Example basename_of_path :
  basename "./notebooks/assets-resources/pdfs/attention_paper.pdf"
  = "attention_paper.pdf"
  /\ basename "paper.pdf" = "paper.pdf" /\ basename "dir/" = "".
Proof. repeat split; reflexivity. Qed.

Example UnknownTimeZoneError_is_an_Exception :
  issubclass UnknownTimeZoneError Exception = true
  /\ issubclass KeyboardInterrupt Exception = false
  /\ issubclass IndexError UnknownTimeZoneError = false.
Proof. repeat split; reflexivity. Qed.

Example create_vector_store_run :
  let r := create_vector_store (service "r" "t" []) "Research Papers Store"
                               (__init__, empty_world) in
  fst r = Return "vs_1"
  /\ fst (snd r) = ready
  /\ remote_log (snd (snd r))
     = [call_vector_stores_create "Research Papers Store"].
Proof. repeat split; reflexivity. Qed.

Example upload_pdf_run :
  fst (upload_pdf (service "r" "t" []) (fun _ => Return tt) "./pdfs/a.pdf"
                  (ready, empty_world))
  = Return [("file", "a.pdf"); ("status", "success"); ("file_id", "file_1")]
  /\ fst (upload_pdf (service "r" "t" [])
                     (fun _ => Raise (mkExn (OtherError "FileNotFoundError")
                                            "No such file or directory"))
                     "./pdfs/a.pdf" (ready, empty_world))
     = Return [("file", "a.pdf"); ("status", "failed");
               ("error", "No such file or directory")].
Proof. split; reflexivity. Qed.

Example search_run :
  let r := search (service "resp_1" "An answer." []) "q" "gpt-4o-mini"
                  (ready, empty_world) in
  fst r = Return "An answer."
  /\ conversation_history (fst (snd r))
     = [{| query := "q"; Demo1.response := "An answer.";
           response_id := Some "resp_1" |}].
Proof. split; reflexivity. Qed.

Example advisor_stream_run :
  let r := Demo2._stream_response
             (service "resp_1" "Hold."
                      [OutputItemAdded "code_interpreter_call";
                       TextDelta "Hold"; OutputItemAdded "message";
                       TextDelta "."; TurnCompleted "resp_1"])
             "q" "" [code_interpreter "auto"] "gpt-4o"
             (Demo2.__init__, empty_world) in
  fst r = Return "Hold."
  /\ fst (snd r) = {| Demo2.conversation_id := Some "resp_1" |}
  /\ stdout (snd (snd r))
     = nl ++ str_mul "=" 60 ++ nl ++ "Query: q" ++ nl ++ str_mul "=" 60 ++ nl
       ++ "Investment Advisor: " ++ nl ++ nl ++ "[Running analysis...]" ++ nl
       ++ "Hold." ++ nl ++ str_mul "=" 60 ++ nl.
Proof. repeat split; reflexivity. Qed.

Example invokeLocal_run :
  Orchestration.invokeLocal [calc; web_search] "calc" "2+2" = inr "= 2+2"
  /\ Orchestration.invokeLocal [calc; web_search] "web_search" "rocq"
     = inl Orchestration.NotLocalError
  /\ Orchestration.invokeLocal [calc; web_search] "mail" ""
     = inl Orchestration.UnknownToolError.
Proof. repeat split; reflexivity. Qed.

End Runs.

(* ================================================================== *)
(** * The streaming loop of demo 1                                    *)
(* ================================================================== *)

Section Loop1.

Import Demo1 Aggregation.

Variable obs : string -> world -> world.

Lemma delta_not_completed (ev : event) :
  is_text_delta ev = true -> is_completed ev = false.
Proof.
  unfold is_text_delta, is_completed. intros H.
  apply String.eqb_eq in H. rewrite H. reflexivity.
Qed.

Lemma latest_cons (i : string) (ids : list string) (cur : option string) :
  latest (i :: ids) cur = latest ids (Some i).
Proof.
  unfold latest. destruct ids as [|j js]; [reflexivity|].
  change (Py.last (i :: j :: js)) with (Py.last (j :: js)).
  destruct (Py.last (j :: js)) eqn:L; [reflexivity|].
  exfalso. revert j L. induction js as [|k js IH]; intros j L.
  - discriminate.
  - apply (IH k). exact L.
Qed.

Lemma stream_body_delta ev ft cur (st : @St PDFSearchAssistant) :
  is_text_delta ev = true ->
  stream_body obs ev (ft, cur) st
  = (Return ((ft ++ [delta ev])%list, cur), (fst st, obs (delta ev) (snd st))).
Proof.
  unfold is_text_delta, stream_body. intros ->. reflexivity.
Qed.

Lemma stream_body_completed ev ft cur (st : @St PDFSearchAssistant) :
  is_text_delta ev = false -> is_completed ev = true ->
  stream_body obs ev (ft, cur) st
  = (Return (ft, Some (id (OpenAI.response ev))), st).
Proof.
  unfold is_text_delta, is_completed, stream_body.
  intros -> ->. reflexivity.
Qed.

Lemma stream_body_other ev ft cur (st : @St PDFSearchAssistant) :
  recognized1 ev = false ->
  stream_body obs ev (ft, cur) st = (Return (ft, cur), st).
Proof.
  unfold recognized1, is_text_delta, is_completed, stream_body.
  intros H. apply orb_false_elim in H as [-> ->]. reflexivity.
Qed.

(** The loop never raises; it appends every delta, keeps the id of the
    last completed event, and touches the world through the observer
    only. *)
Lemma loop1_spec (evs : list event) :
  forall ft cur a w,
    for_in evs (stream_body obs) (ft, cur) (a, w)
    = (Return ((ft ++ deltas evs)%list, latest (completed_ids evs) cur),
       (a, observe_all obs (deltas evs) w)).
Proof.
  induction evs as [|ev evs IH]; intros ft cur a w.
  - cbn. now rewrite app_nil_r.
  - cbn [for_in]. unfold bind.
    destruct (is_text_delta ev) eqn:Hd.
    + rewrite (stream_body_delta _ _ _ _ Hd). cbn [fst snd]. rewrite IH.
      unfold deltas, completed_ids. cbn [filter].
      rewrite Hd, (delta_not_completed _ Hd). cbn [map].
      now rewrite <- app_assoc.
    + destruct (is_completed ev) eqn:Hc.
      * rewrite (stream_body_completed _ _ _ _ Hd Hc), IH.
        unfold deltas, completed_ids. cbn [filter].
        rewrite Hd, Hc. cbn [map]. now rewrite latest_cons.
      * rewrite stream_body_other, IH
          by (unfold recognized1; now rewrite Hd, Hc).
        unfold deltas, completed_ids. cbn [filter]. now rewrite Hd, Hc.
Qed.

Lemma for_event1_spec (s : stream) a w :
  for_event s (stream_body obs) ([], None) (a, w)
  = (match interrupted s with
     | None => Return (deltas (events s),
                       latest (completed_ids (events s)) None)
     | Some e => Raise e
     end,
     (a, observe_all obs (deltas (events s)) w)).
Proof.
  unfold for_event, bind. rewrite loop1_spec.
  destruct (interrupted s); reflexivity.
Qed.

(** [search_streaming], case by case: the guard, the remote call, the
    end of the stream. *)
Lemma search_streaming_with_unfold c q m a w :
  search_streaming_with obs c q m (a, w)
  = if negb (truthy (vector_store_id a))
    then (Raise (mkExn ValueError not_created), (a, w))
    else
      let req := search_request a q m true in
      match responses_create_stream c req with
      | Raise e => (Raise e, (a, preamble1 q req w))
      | Return s =>
          let w' := observe_all obs (deltas (events s)) (preamble1 q req w) in
          match interrupted s with
          | None =>
              (Return tt,
               (append_history
                  {| query := q;
                     Demo1.response := join (deltas (events s));
                     response_id := latest (completed_ids (events s)) None |}
                  a,
                closing w'))
          | Some e => (Raise e, (a, w'))
          end
      end.
Proof.
  unfold search_streaming_with, bind at 1. cbn [self fst].
  destruct (negb (truthy (vector_store_id a))); [reflexivity|].
  unfold println, print, remote, notify, modify, lift, bind. cbn [fst snd].
  cbv zeta.
  destruct (responses_create_stream c (search_request a q m true)) as [s|e];
    [|reflexivity].
  rewrite for_event1_spec.
  destruct (interrupted s); reflexivity.
Qed.

Lemma run_loop1_spec (evs : list event) a w :
  run_loop1 obs evs (a, w)
  = (Return (deltas evs, latest (completed_ids evs) None),
     (a, observe_all obs (deltas evs) w)).
Proof. unfold run_loop1. now rewrite loop1_spec. Qed.

Lemma aggregate_with_spec (evs : list event) :
  aggregate_with obs evs
  = Some {| finalText := join (deltas evs);
            turnId := latest (completed_ids evs) None |}.
Proof. unfold aggregate_with. now rewrite run_loop1_spec. Qed.

End Loop1.

(* ================================================================== *)
(** * The streaming loop of demo 2                                    *)
(* ================================================================== *)

Section Loop2.

Import Demo2 Aggregation.

Lemma stream_body2_spec ev ft a w :
  stream_body ev ft (a, w)
  = (Return (if is_text_delta ev then (ft ++ [delta ev])%list else ft),
     (if is_text_delta ev then a
      else if is_output_item_added ev then a
      else if is_completed ev
           then {| conversation_id := Some (id (response ev)) |}
           else a,
      echo2 w ev)).
Proof.
  unfold stream_body, echo2, is_text_delta, is_output_item_added,
    is_completed.
  destruct (type ev =? "response.output_text.delta"); [reflexivity|].
  destruct (type ev =? "response.output_item.added").
  - destruct (item ev) as [it|]; [|reflexivity].
    destruct (item_type it =? "code_interpreter_call"); reflexivity.
  - destruct (type ev =? "response.completed"); reflexivity.
Qed.

Lemma completed_not_other (ev : event) :
  is_completed ev = true ->
  is_text_delta ev = false /\ is_output_item_added ev = false.
Proof.
  unfold is_text_delta, is_output_item_added, is_completed. intros H.
  apply String.eqb_eq in H. rewrite H. split; reflexivity.
Qed.

(** The loop never raises; it appends every delta and leaves in
    [conversation_id] the id of the last completed event, or the id
    held before when there is none. *)
Lemma loop2_spec (evs : list event) :
  forall ft prev w,
    for_in evs stream_body ft ({| conversation_id := prev |}, w)
    = (Return (ft ++ deltas evs)%list,
       ({| conversation_id := latest (completed_ids evs) prev |},
        fold_left echo2 evs w)).
Proof.
  induction evs as [|ev evs IH]; intros ft prev w.
  - cbn. now rewrite app_nil_r.
  - cbn [for_in fold_left]. unfold bind. rewrite stream_body2_spec.
    unfold deltas, completed_ids. cbn [filter].
    destruct (is_completed ev) eqn:Hc.
    + destruct (completed_not_other _ Hc) as [-> ->].
      rewrite IH. cbn [map]. now rewrite latest_cons.
    + destruct (is_text_delta ev) eqn:Hd.
      * rewrite IH. cbn [map]. now rewrite <- app_assoc.
      * destruct (is_output_item_added ev); now rewrite IH.
Qed.

Lemma aggregate2_spec prev (evs : list event) :
  aggregate2 prev evs
  = Some {| finalText := join (deltas evs);
            turnId := latest (completed_ids evs) prev |}.
Proof. unfold aggregate2, run_loop2. now rewrite loop2_spec. Qed.

(** [_stream_response] once the service has handed out the stream. *)
Lemma _stream_response_spec c q ins tl m prev w s :
  let req := advisor_request {| conversation_id := prev |} q ins tl m true in
  responses_create_stream c req = Return s ->
  _stream_response c q ins tl m ({| conversation_id := prev |}, w)
  = match interrupted s with
    | None =>
        (Return (join (deltas (events s))),
         ({| conversation_id := latest (completed_ids (events s)) prev |},
          closing (fold_left echo2 (events s) (preamble2 q req w))))
    | Some e =>
        (Raise e,
         ({| conversation_id := latest (completed_ids (events s)) prev |},
          fold_left echo2 (events s) (preamble2 q req w)))
    end.
Proof.
  intros req Hs. unfold _stream_response.
  unfold println, print, remote, notify, modify, lift, self, bind.
  cbn [fst snd]. fold req. rewrite Hs.
  unfold for_event, bind. rewrite loop2_spec.
  destruct (interrupted s); reflexivity.
Qed.

(** [_sync_response] once the service has answered with [r]. *)
Lemma _sync_response_spec c q ins tl m a w r :
  let req := advisor_request a q ins tl m false in
  responses_create c req = Return r ->
  _sync_response c q ins tl m (a, w)
  = (last_output_text r,
     ({| conversation_id := Some (id r) |},
      log (call_responses_create req) w)).
Proof.
  intros req Hr. unfold _sync_response.
  unfold remote, notify, modify, lift, self, update, bind.
  cbn [fst snd]. fold req. rewrite Hr. reflexivity.
Qed.

End Loop2.

(* ================================================================== *)
(** * The methods of demo 1, case by case                             *)
(* ================================================================== *)

Section Methods1.

Import Demo1 Aggregation.

Lemma search_unfold c q m a w :
  search c q m (a, w)
  = if negb (truthy (vector_store_id a))
    then (Raise (mkExn ValueError not_created), (a, w))
    else
      let req := search_request a q m false in
      match responses_create c req with
      | Raise e => (Raise e, (a, preamble0 q req w))
      | Return r =>
          match last_output_text r with
          | Raise e => (Raise e, (a, preamble0 q req w))
          | Return t =>
              (Return t,
               (append_history
                  {| query := q; Demo1.response := t;
                     response_id := Some (id r) |} a,
                preamble0 q req w))
          end
      end.
Proof.
  unfold search, bind at 1. cbn [self fst].
  destruct (negb (truthy (vector_store_id a))); [reflexivity|].
  unfold println, print, remote, notify, modify, lift, update, bind.
  cbn [fst snd]. cbv zeta.
  destruct (responses_create c (search_request a q m false)) as [r|e];
    [|reflexivity].
  destruct (last_output_text r); reflexivity.
Qed.

Lemma upload_pdf_guard c open_rb path a w :
  truthy (vector_store_id a) = false ->
  upload_pdf c open_rb path (a, w)
  = (Raise (mkExn ValueError not_created), (a, w)).
Proof.
  intros H. unfold upload_pdf, bind at 1. cbn [self fst].
  rewrite H. reflexivity.
Qed.

Lemma previous_response_id_of_append e a :
  previous_response_id_of (append_history e a) = response_id e.
Proof.
  unfold previous_response_id_of, append_history.
  cbn [conversation_history]. now rewrite last_snoc.
Qed.

End Methods1.

(* ================================================================== *)
(** * Stream aggregation: order, completion, observers                *)
(* ================================================================== *)

Section AggregationClaims.

Import Demo1 Aggregation Examples.

Lemma deltas_app (l1 l2 : list event) :
  deltas (l1 ++ l2) = (deltas l1 ++ deltas l2)%list.
Proof. unfold deltas. now rewrite filter_app, map_app. Qed.

Lemma completed_ids_app (l1 l2 : list event) :
  completed_ids (l1 ++ l2) = (completed_ids l1 ++ completed_ids l2)%list.
Proof. unfold completed_ids. now rewrite filter_app, map_app. Qed.

Lemma deltas_TextDelta (ds : list string) : deltas (map TextDelta ds) = ds.
Proof.
  induction ds as [|d ds IH]; [reflexivity|].
  unfold deltas in *. cbn. now rewrite IH.
Qed.

Lemma completed_ids_TextDelta (ds : list string) :
  completed_ids (map TextDelta ds) = [].
Proof.
  induction ds as [|d ds IH]; [reflexivity|].
  unfold completed_ids in *. cbn. exact IH.
Qed.

Lemma latest_app_cons (l1 l2 : list string) (i : string) cur :
  latest (l1 ++ i :: l2) cur = latest l2 (Some i).
Proof.
  unfold latest. rewrite last_app_cons. apply (latest_cons i l2 cur).
Qed.

Lemma unrecognized_filtered (p : event -> bool) (l : list event) :
  forallb (fun e => negb (p e)) l = true -> filter p l = [].
Proof.
  induction l as [|e l IH]; [reflexivity|].
  cbn. intros H. apply andb_prop in H as [H1 H2].
  destruct (p e); [discriminate|]. auto.
Qed.

Lemma unrecognized1_tail (post : list event) :
  forallb (fun e => negb (recognized1 e)) post = true ->
  deltas post = [] /\ completed_ids post = [].
Proof.
  intros H. unfold deltas, completed_ids.
  rewrite !unrecognized_filtered; [split; reflexivity| |].
  - rewrite forallb_forall in *. intros e He. specialize (H e He).
    unfold recognized1 in H. destruct (is_completed e); [|reflexivity].
    now rewrite orb_true_r in H.
  - rewrite forallb_forall in *. intros e He. specialize (H e He).
    unfold recognized1 in H. now destruct (is_text_delta e).
Qed.

(** C4: folding [TextDelta "a"; TextDelta "b"; TurnCompleted "t1"] gives
    the text "ab" and the turn id "t1", the loop ending normally; for
    every list of text deltas followed by a completed event the final
    text is the concatenation of the payloads in arrival order, and
    [search_streaming] returns normally with that text and that id
    recorded in the history. *)
Theorem aggregate_deltas_then_completed :
  aggregate [TextDelta "a"; TextDelta "b"; TurnCompleted "t1"]
  = Some {| finalText := "ab"; turnId := Some "t1" |}
  /\ (forall (ds : list string) (i : string),
         aggregate (map TextDelta ds ++ [TurnCompleted i])
         = Some {| finalText := fold_right String.append "" ds;
                   turnId := Some i |})
  /\ (forall c q m a w (ds : list string) (i : string),
         truthy (vector_store_id a) = true ->
         responses_create_stream c (search_request a q m true)
         = Return {| events := map TextDelta ds ++ [TurnCompleted i];
                     interrupted := None |} ->
         exists w',
           search_streaming c q m (a, w)
           = (Return tt,
              (append_history
                 {| query := q;
                    Demo1.response := fold_right String.append "" ds;
                    response_id := Some i |} a, w'))).
Proof.
  assert (G : forall (ds : list string) (i : string),
             deltas (map TextDelta ds ++ [TurnCompleted i]) = ds
             /\ latest (completed_ids (map TextDelta ds ++ [TurnCompleted i]))
                       None = Some i).
  { intros ds i. rewrite deltas_app, completed_ids_app, deltas_TextDelta,
      completed_ids_TextDelta. cbn. now rewrite app_nil_r. }
  split; [reflexivity|]. split.
  - intros ds i. unfold aggregate. rewrite aggregate_with_spec.
    destruct (G ds i) as [-> ->]. now rewrite join_fold_right.
  - intros c q m a w ds i Hv Hs. unfold search_streaming.
    rewrite search_streaming_with_unfold, Hv. cbn [negb]. cbv zeta.
    rewrite Hs. cbn [interrupted events].
    destruct (G ds i) as [-> ->]. rewrite join_fold_right.
    eexists. reflexivity.
Qed.

Lemma aggregate_deltas_then_completed_witness :
  exists w',
    search_streaming
      (service "t1" "ab" [TextDelta "a"; TextDelta "b"; TurnCompleted "t1"])
      "q" "gpt-4o-mini" (ready, empty_world)
    = (Return tt,
       (append_history
          {| query := "q"; Demo1.response := "ab";
             response_id := Some "t1" |} ready, w')).
Proof.
  exact (proj2 (proj2 aggregate_deltas_then_completed)
               (service "t1" "ab"
                        [TextDelta "a"; TextDelta "b"; TurnCompleted "t1"])
               "q" "gpt-4o-mini" ready empty_world ["a"; "b"] "t1"
               eq_refl eq_refl).
Defined.

(** C3, as stated, fails: the loops have no [break].  After a first
    completed event a later text delta is still appended and a later
    completed event overwrites the id, in both demos. *)
Lemma events_after_completed_counterexample :
  let evs := [TurnCompleted "t1"; TextDelta "x"; TurnCompleted "t2"] in
  aggregate evs = Some {| finalText := "x"; turnId := Some "t2" |}
  /\ aggregate [TurnCompleted "t1"]
     = Some {| finalText := ""; turnId := Some "t1" |}
  /\ aggregate2 None evs = Some {| finalText := "x"; turnId := Some "t2" |}
  /\ aggregate2 None [TurnCompleted "t1"]
     = Some {| finalText := ""; turnId := Some "t1" |}.
Proof. repeat split; reflexivity. Qed.

(** C3, amended: the loops consume the whole stream.  For a stream
    [pre ++ c :: post] with [c] a completed event, the final text is the
    concatenation of the deltas of [pre] and of [post] and the recorded id
    is that of the last completed event of the stream; the result is that
    of the stream cut after [c] whenever no text delta and no completed
    event follows [c]. *)
Theorem aggregate_past_completed (pre post : list event) (c : event) :
  is_completed c = true ->
  (aggregate (pre ++ c :: post)
   = Some {| finalText := join (deltas pre ++ deltas post);
             turnId := latest (completed_ids post)
                              (Some (id (OpenAI.response c))) |}
   /\ forall prev,
       aggregate2 prev (pre ++ c :: post)
       = Some {| finalText := join (deltas pre ++ deltas post);
                 turnId := latest (completed_ids post)
                                  (Some (id (OpenAI.response c))) |})
  /\ (forallb (fun e => negb (recognized1 e)) post = true ->
      aggregate (pre ++ c :: post) = aggregate (pre ++ [c])
      /\ forall prev,
          aggregate2 prev (pre ++ c :: post) = aggregate2 prev (pre ++ [c])).
Proof.
  intros Hc.
  assert (Hd : is_text_delta c = false)
    by (destruct (is_text_delta c) eqn:E;
        [rewrite (delta_not_completed _ E) in Hc; discriminate|reflexivity]).
  assert (D : forall l, deltas (pre ++ c :: l) = (deltas pre ++ deltas l)%list).
  { intros l. rewrite deltas_app. unfold deltas at 2. cbn [filter].
    now rewrite Hd. }
  assert (I : forall l cur,
             latest (completed_ids (pre ++ c :: l)) cur
             = latest (completed_ids l) (Some (id (OpenAI.response c)))).
  { intros l cur. rewrite completed_ids_app. unfold completed_ids at 2.
    cbn [filter]. rewrite Hc. cbn [map]. apply latest_app_cons. }
  unfold aggregate. split; [split|].
  - now rewrite aggregate_with_spec, D, I.
  - intros prev. now rewrite aggregate2_spec, D, I.
  - intros Hp. destruct (unrecognized1_tail _ Hp) as [P1 P2].
    split; [|intros prev]; rewrite ?aggregate_with_spec, ?aggregate2_spec,
      !D, !I, P1, P2; reflexivity.
Qed.

Lemma aggregate_past_completed_witness :
  (aggregate ([TextDelta "a"] ++ TurnCompleted "t1" :: [OtherEvent "response.done"])
   = Some {| finalText := "a"; turnId := Some "t1" |}
   /\ forall prev,
       aggregate2 prev ([TextDelta "a"] ++ TurnCompleted "t1"
                                        :: [OtherEvent "response.done"])
       = Some {| finalText := "a"; turnId := Some "t1" |})
  /\ (aggregate ([TextDelta "a"] ++ TurnCompleted "t1"
                                 :: [OtherEvent "response.done"])
      = aggregate ([TextDelta "a"] ++ [TurnCompleted "t1"])
      /\ forall prev,
          aggregate2 prev ([TextDelta "a"] ++ TurnCompleted "t1"
                                           :: [OtherEvent "response.done"])
          = aggregate2 prev ([TextDelta "a"] ++ [TurnCompleted "t1"])).
Proof.
  pose proof (aggregate_past_completed
                [TextDelta "a"] [OtherEvent "response.done"]
                (TurnCompleted "t1") eq_refl) as [H1 H2].
  split; [exact H1 | exact (H2 eq_refl)].
Defined.

End AggregationClaims.

(* ================================================================== *)
(** * The observer of the streaming loop                              *)
(* ================================================================== *)

Section ObserverClaim.

Import Demo1 Aggregation Examples Observer.










End ObserverClaim.

(* ================================================================== *)
(** * Events of other kinds                                           *)
(* ================================================================== *)

Section UnknownEvents.

Import Aggregation Examples.

Lemma deltas_drop (pre post : list event) (e : event) :
  is_text_delta e = false -> deltas (pre ++ e :: post) = deltas (pre ++ post).
Proof.
  intros H. rewrite !deltas_app. unfold deltas at 2. cbn [filter].
  now rewrite H.
Qed.

Lemma completed_ids_drop (pre post : list event) (e : event) :
  is_completed e = false ->
  completed_ids (pre ++ e :: post) = completed_ids (pre ++ post).
Proof.
  intros H. rewrite !completed_ids_app. unfold completed_ids at 2.
  cbn [filter]. now rewrite H.
Qed.

Lemma echo2_drop (pre post : list event) (e : event) (w : world) :
  recognized2 e = false ->
  fold_left echo2 (pre ++ e :: post) w = fold_left echo2 (pre ++ post) w.
Proof.
  intros H. rewrite !fold_left_app. cbn [fold_left]. f_equal.
  unfold recognized2 in H.
  apply orb_false_elim in H as [H _]. apply orb_false_elim in H as [H1 H2].
  unfold echo2. now rewrite H1, H2.
Qed.

(** C10: an event of a kind the loop has no branch for changes nothing.
    The loop does not raise, and the stream with the event and the
    stream without it give the same result and the same state (text, id,
    history, console), for the loop alone and for the whole method, in
    demo 1 and in demo 2. *)
Theorem unrecognized_event_is_skipped (pre post : list event) (e : event) :
  (recognized1 e = false ->
   (forall obs st,
       run_loop1 obs (pre ++ e :: post) st = run_loop1 obs (pre ++ post) st
       /\ exists l st', run_loop1 obs (pre ++ e :: post) st = (Return l, st'))
   /\ (forall c1 c2 q m a w x,
          responses_create_stream c1 (Demo1.search_request a q m true)
          = Return {| events := pre ++ e :: post; interrupted := x |} ->
          responses_create_stream c2 (Demo1.search_request a q m true)
          = Return {| events := pre ++ post; interrupted := x |} ->
          Demo1.search_streaming c1 q m (a, w)
          = Demo1.search_streaming c2 q m (a, w)))
  /\ (recognized2 e = false ->
      (forall st,
          run_loop2 (pre ++ e :: post) st = run_loop2 (pre ++ post) st
          /\ exists l st', run_loop2 (pre ++ e :: post) st = (Return l, st'))
      /\ (forall c1 c2 q ins tl m a w x,
             responses_create_stream c1
               (Demo2.advisor_request a q ins tl m true)
             = Return {| events := pre ++ e :: post; interrupted := x |} ->
             responses_create_stream c2
               (Demo2.advisor_request a q ins tl m true)
             = Return {| events := pre ++ post; interrupted := x |} ->
             Demo2._stream_response c1 q ins tl m (a, w)
             = Demo2._stream_response c2 q ins tl m (a, w))).
Proof.
  split.
  - intros H. unfold recognized1 in H.
    apply orb_false_elim in H as [Hd Hc]. split.
    + intros obs [a w]. rewrite !run_loop1_spec.
      rewrite (deltas_drop _ _ _ Hd), (completed_ids_drop _ _ _ Hc).
      split; [reflexivity|]. eexists; eexists; reflexivity.
    + intros c1 c2 q m a w x H1 H2. unfold Demo1.search_streaming.
      rewrite !search_streaming_with_unfold.
      destruct (negb (truthy (Demo1.vector_store_id a))); [reflexivity|].
      cbv zeta. rewrite H1, H2. cbn [events interrupted].
      now rewrite (deltas_drop _ _ _ Hd), (completed_ids_drop _ _ _ Hc).
  - intros H.
    assert (Hd : is_text_delta e = false /\ is_completed e = false).
    { unfold recognized2 in H. apply orb_false_elim in H as [H Hc].
      apply orb_false_elim in H as [Hd _]. now split. }
    destruct Hd as [Hd Hc]. split.
    + intros [[prev] w]. unfold run_loop2. rewrite !loop2_spec.
      rewrite (deltas_drop _ _ _ Hd), (completed_ids_drop _ _ _ Hc),
        (echo2_drop _ _ _ _ H).
      split; [reflexivity|]. eexists; eexists; reflexivity.
    + intros c1 c2 q ins tl m [prev] w x H1 H2.
      rewrite (_stream_response_spec _ _ _ _ _ _ _ _ H1),
        (_stream_response_spec _ _ _ _ _ _ _ _ H2).
      cbn [events interrupted].
      now rewrite (deltas_drop _ _ _ Hd), (completed_ids_drop _ _ _ Hc),
        (echo2_drop _ _ _ _ H).
Qed.

Lemma unrecognized_event_is_skipped_witness :
  Demo1.search_streaming
    (service "t1" "a"
             ([TextDelta "a"] ++ OtherEvent "response.in_progress"
                              :: [TurnCompleted "t1"]))
    "q" "gpt-4o-mini" (ready, empty_world)
  = Demo1.search_streaming
      (service "t1" "a" ([TextDelta "a"] ++ [TurnCompleted "t1"]))
      "q" "gpt-4o-mini" (ready, empty_world)
  /\ Demo2._stream_response
       (service "t1" "a"
                ([TextDelta "a"] ++ OtherEvent "response.in_progress"
                                 :: [TurnCompleted "t1"]))
       "q" "" [] "gpt-4o" (Demo2.__init__, empty_world)
     = Demo2._stream_response
         (service "t1" "a" ([TextDelta "a"] ++ [TurnCompleted "t1"]))
         "q" "" [] "gpt-4o" (Demo2.__init__, empty_world).
Proof.
  pose proof (unrecognized_event_is_skipped
                [TextDelta "a"] [TurnCompleted "t1"]
                (OtherEvent "response.in_progress")) as [H1 H2].
  split.
  - exact (proj2 (H1 eq_refl)
                 (service "t1" "a"
                          ([TextDelta "a"] ++ OtherEvent "response.in_progress"
                                           :: [TurnCompleted "t1"]))
                 (service "t1" "a" ([TextDelta "a"] ++ [TurnCompleted "t1"]))
                 "q" "gpt-4o-mini" ready empty_world None eq_refl eq_refl).
  - exact (proj2 (H2 eq_refl)
                 (service "t1" "a"
                          ([TextDelta "a"] ++ OtherEvent "response.in_progress"
                                           :: [TurnCompleted "t1"]))
                 (service "t1" "a" ([TextDelta "a"] ++ [TurnCompleted "t1"]))
                 "q" "" [] "gpt-4o" Demo2.__init__ empty_world None
                 eq_refl eq_refl).
Defined.

End UnknownEvents.

(* ================================================================== *)
(** * The vector-store guard                                          *)
(* ================================================================== *)

Section Guard.

Import Demo1 Examples.

(** C9: with no vector store created ([vector_store_id] is [None], as in
    a new assistant), [upload_pdf], [search] and [search_streaming] raise
    [ValueError] and return the assistant and the world as they were: no
    remote call has been recorded, nothing was printed, the history is
    the same. *)
Theorem no_vector_store_raises c open_rb path q m a w :
  vector_store_id a = None ->
  upload_pdf c open_rb path (a, w)
  = (Raise (mkExn ValueError not_created), (a, w))
  /\ search c q m (a, w) = (Raise (mkExn ValueError not_created), (a, w))
  /\ search_streaming c q m (a, w)
     = (Raise (mkExn ValueError not_created), (a, w)).
Proof.
  intros H. split; [|split].
  - apply upload_pdf_guard. now rewrite H.
  - rewrite search_unfold, H. reflexivity.
  - unfold search_streaming. rewrite search_streaming_with_unfold, H.
    reflexivity.
Qed.

Lemma no_vector_store_raises_witness :
  vector_store_id __init__ = None
  /\ upload_pdf (service "r" "t" []) (fun _ => Return tt) "./a.pdf"
                (__init__, empty_world)
     = (Raise (mkExn ValueError not_created), (__init__, empty_world))
  /\ search (service "r" "t" []) "q" "gpt-4o-mini" (__init__, empty_world)
     = (Raise (mkExn ValueError not_created), (__init__, empty_world))
  /\ search_streaming (service "r" "t" []) "q" "gpt-4o-mini"
                      (__init__, empty_world)
     = (Raise (mkExn ValueError not_created), (__init__, empty_world)).
Proof.
  split; [reflexivity|].
  exact (no_vector_store_raises (service "r" "t" []) (fun _ => Return tt)
           "./a.pdf" "q" "gpt-4o-mini" __init__ empty_world eq_refl).
Defined.

End Guard.

(* ================================================================== *)
(** * Chaining turns in demo 1                                        *)
(* ================================================================== *)

Section Chaining.

Import Demo1 Aggregation Session Examples.

Lemma run_turn_spec t a w a1 w1 :
  run_turn t (a, w) = (Return tt, (a1, w1)) ->
  exists e, a1 = append_history e a /\ response_id e = issued_turn_id t a.
Proof.
  destruct t as [c q m|c q m]; cbn [run_turn issued_turn_id].
  - unfold bind. rewrite search_unfold.
    destruct (negb (truthy (vector_store_id a))); [discriminate|].
    cbv zeta.
    destruct (responses_create c (search_request a q m false)) as [r|e];
      [|discriminate].
    destruct (last_output_text r) as [t|e]; [|discriminate].
    cbn. intros H. injection H as <- _. eexists. split; reflexivity.
  - unfold search_streaming. rewrite search_streaming_with_unfold.
    destruct (negb (truthy (vector_store_id a))); [discriminate|].
    cbv zeta.
    destruct (responses_create_stream c (search_request a q m true))
      as [s|e]; [|discriminate].
    destruct (interrupted s); [discriminate|].
    intros H. injection H as <- _.
    unfold aggregate. rewrite aggregate_with_spec.
    eexists. split; reflexivity.
Qed.

Lemma run_session_cons t rest a w :
  run_session (t :: rest) (a, w)
  = match run_turn t (a, w) with
    | (Return _, st1) =>
        match run_session rest st1 with
        | (Return ids, st2) => (Return (issued_turn_id t a :: ids), st2)
        | (Raise e, st2) => (Raise e, st2)
        end
    | (Raise e, st1) => (Raise e, st1)
    end.
Proof.
  cbn [run_session]. unfold bind, self, ret. cbn [fst].
  destruct (run_turn t (a, w)) as [[u|e] st1]; [|reflexivity].
  destruct (run_session rest st1) as [[ids|e] st2]; reflexivity.
Qed.

Lemma last_turn_id_cons i j ids :
  last_turn_id (i :: j :: ids) = last_turn_id (j :: ids).
Proof. reflexivity. Qed.

(** A session that ran to its end has one history entry per turn, and
    the id to chain the next request to is the turn id of its last
    turn. *)
Lemma run_session_spec (ts : list turn) :
  forall a w ids a' w',
    run_session ts (a, w) = (Return ids, (a', w')) ->
    length ids = length ts
    /\ length (conversation_history a')
       = length (conversation_history a) + length ts
    /\ (ts <> [] -> previous_response_id_of a' = last_turn_id ids).
Proof.
  induction ts as [|t rest IH]; intros a w ids a' w' H.
  - cbn in H. injection H as <- <- _. cbn. repeat split; [lia|congruence].
  - rewrite run_session_cons in H.
    destruct (run_turn t (a, w)) as [[[]|e] [a1 w1]] eqn:Ht; [|discriminate].
    destruct (run_session rest (a1, w1)) as [[ids'|e] [a2 w2]] eqn:Hr;
      [|discriminate].
    injection H as <- <- _.
    destruct (run_turn_spec _ _ _ _ _ Ht) as [e [-> He]].
    destruct (IH _ _ _ _ _ Hr) as [L [N P]].
    split; [cbn; congruence|]. split.
    + rewrite N. unfold append_history. cbn [conversation_history].
      rewrite length_app. cbn. lia.
    + intros _. destruct rest as [|t' rest'].
      * cbn in Hr. injection Hr as <- <- _.
        rewrite previous_response_id_of_append, He. reflexivity.
      * destruct ids' as [|j ids'']; [discriminate|].
        rewrite last_turn_id_cons. apply P. discriminate.
Qed.

(** C1: in a session started with an empty history in which each of the
    [n] turns returned, the history has exactly [n] entries and the id
    the next request is chained to ([previous_response_id]) is the turn
    id of the aggregation result of turn [n]. *)
Theorem chained_to_last_turn (ts : list turn) a w ids a' w' :
  conversation_history a = [] ->
  run_session ts (a, w) = (Return ids, (a', w')) ->
  length (conversation_history a') = length ts
  /\ previous_response_id_of a' = last_turn_id ids
  /\ forall q m streaming,
      previous_response_id (search_request a' q m streaming)
      = last_turn_id ids.
Proof.
  intros E H. destruct (run_session_spec ts _ _ _ _ _ H) as [_ [N P]].
  rewrite E in N. split; [exact N|].
  assert (Q : previous_response_id_of a' = last_turn_id ids).
  { destruct ts as [|t rest]; [|apply P; discriminate].
    cbn in H. injection H as <- <- _.
    unfold previous_response_id_of. now rewrite E. }
  split; [exact Q|]. intros q m streaming. exact Q.
Qed.

Lemma chained_to_last_turn_witness :
  let r := run_session two_turns (ready, empty_world) in
  fst r = Return [Some "resp_1"; Some "resp_2"]
  /\ length (conversation_history (fst (snd r))) = 2
  /\ previous_response_id_of (fst (snd r)) = Some "resp_2"
  /\ forall q m streaming,
      previous_response_id (search_request (fst (snd r)) q m streaming)
      = Some "resp_2".
Proof.
  split; [reflexivity|].
  exact (chained_to_last_turn two_turns ready empty_world
           [Some "resp_1"; Some "resp_2"]
           (fst (snd (run_session two_turns (ready, empty_world))))
           (snd (snd (run_session two_turns (ready, empty_world))))
           eq_refl eq_refl).
Defined.

(** A stream that ends without a completed event: the attempt is stored
    with no response id, so the id to chain to becomes [None] whatever it
    was before. *)
Lemma search_streaming_without_completed c q m a w s :
  truthy (vector_store_id a) = true ->
  responses_create_stream c (search_request a q m true) = Return s ->
  interrupted s = None ->
  completed_ids (events s) = [] ->
  exists w',
    search_streaming c q m (a, w)
    = (Return tt,
       (append_history {| query := q;
                          Demo1.response := join (deltas (events s));
                          response_id := None |} a, w'))
    /\ previous_response_id_of
         (append_history {| query := q;
                            Demo1.response := join (deltas (events s));
                            response_id := None |} a) = None.
Proof.
  intros Hv Hs Hi Hc. unfold search_streaming.
  rewrite search_streaming_with_unfold, Hv. cbn [negb]. cbv zeta.
  rewrite Hs, Hi, Hc. eexists. split; [reflexivity|].
  apply previous_response_id_of_append.
Qed.

(** A stream that breaks: the exception leaves [search_streaming] and
    the assistant is as before, with no entry for the attempt. *)
Lemma search_streaming_interrupted c q m a w s e :
  truthy (vector_store_id a) = true ->
  responses_create_stream c (search_request a q m true) = Return s ->
  interrupted s = Some e ->
  exists w', search_streaming c q m (a, w) = (Raise e, (a, w')).
Proof.
  intros Hv Hs Hi. unfold search_streaming.
  rewrite search_streaming_with_unfold, Hv. cbn [negb]. cbv zeta.
  rewrite Hs, Hi. eexists. reflexivity.
Qed.

(** The loop of demo 2 keeps the id it had when the stream carries no
    completed event. *)
Lemma _stream_response_without_completed c q ins tl m prev w s :
  responses_create_stream c
    (Demo2.advisor_request {| Demo2.conversation_id := prev |} q ins tl m true)
  = Return s ->
  completed_ids (events s) = [] ->
  fst (snd (Demo2._stream_response c q ins tl m
              ({| Demo2.conversation_id := prev |}, w)))
  = {| Demo2.conversation_id := prev |}.
Proof.
  intros Hs Hc. rewrite (_stream_response_spec _ _ _ _ _ _ _ _ Hs), Hc.
  destruct (interrupted s); reflexivity.
Qed.

(** C2 at a concrete input.  After one completed turn ([resp_1]), a
    stream that delivers a delta and then a [response.failed] event
    instead of [response.completed]: the call returns, the attempt is
    stored with [response_id = None], the id to chain to is lost, and the
    next search is sent with [previous_response_id = None].  When instead
    the stream breaks with an exception, the id is kept and the history
    has no entry for the attempt. *)
Theorem incomplete_stream_breaks_chain :
  let failed_stream := [TextDelta "par"; OtherEvent "response.failed"] in
  let r := search_streaming (service "resp_2" "par" failed_stream)
                            "q1" "gpt-4o-mini" (after_one_turn, empty_world) in
  let r' := search (service "resp_3" "answer" []) "q2" "gpt-4o-mini" (snd r) in
  let b := search_streaming (broken_service [TextDelta "par"] connection_lost)
                            "q1" "gpt-4o-mini" (after_one_turn, empty_world) in
  previous_response_id_of after_one_turn = Some "resp_1"
  /\ fst r = Return tt
  /\ conversation_history (fst (snd r))
     = [{| query := "q0"; Demo1.response := "r0";
           response_id := Some "resp_1" |};
        {| query := "q1"; Demo1.response := "par"; response_id := None |}]
  /\ previous_response_id_of (fst (snd r)) = None
  /\ fst r' = Return "answer"
  /\ Py.last (remote_log (snd (snd r')))
     = Some (call_responses_create
               (search_request (fst (snd r)) "q2" "gpt-4o-mini" false))
  /\ previous_response_id
       (search_request (fst (snd r)) "q2" "gpt-4o-mini" false) = None
  /\ fst b = Raise connection_lost
  /\ fst (snd b) = after_one_turn.
Proof. cbv zeta. repeat split; reflexivity. Qed.

End Chaining.

(* ================================================================== *)
(** * Streaming and non-streaming paths of demo 2                     *)
(* ================================================================== *)

Section SyncAndStream.

Import Demo2 Aggregation Examples.

(** The two paths agree on the text returned and on the advisor they
    leave whenever the stream ends normally, its deltas concatenate to
    the text of the response object, and its last completed event
    carries the id of the response object. *)
Lemma sync_stream_agree_general c1 c2 q ins tl m a w1 w2 r s t :
  responses_create c1 (advisor_request a q ins tl m false) = Return r ->
  last_output_text r = Return t ->
  responses_create_stream c2 (advisor_request a q ins tl m true) = Return s ->
  interrupted s = None ->
  join (deltas (events s)) = t ->
  Py.last (completed_ids (events s)) = Some (id r) ->
  let sync := _sync_response c1 q ins tl m (a, w1) in
  let streamed := _stream_response c2 q ins tl m (a, w2) in
  fst sync = Return t
  /\ fst streamed = Return t
  /\ fst (snd sync) = {| conversation_id := Some (id r) |}
  /\ fst (snd streamed) = {| conversation_id := Some (id r) |}.
Proof.
  intros Hr Ht Hs Hi Hj Hl. destruct a as [prev]. cbv zeta.
  rewrite (_sync_response_spec _ _ _ _ _ _ _ _ Hr),
    (_stream_response_spec _ _ _ _ _ _ _ _ Hs), Hi, Ht, Hj.
  unfold latest. rewrite Hl. repeat split; reflexivity.
Qed.

(** After a turn of demo 2 that returned, [conversation_id] is the id of
    the response object, or the id of the last completed event of the
    stream (the id held before when the stream had none). *)
Lemma advisor_chained_to_last_turn c q ins tl m a w :
  (forall t a' w',
      _sync_response c q ins tl m (a, w) = (Return t, (a', w')) ->
      exists r,
        responses_create c (advisor_request a q ins tl m false) = Return r
        /\ conversation_id a' = Some (id r))
  /\ (forall s t a' w',
         responses_create_stream c (advisor_request a q ins tl m true)
         = Return s ->
         _stream_response c q ins tl m (a, w) = (Return t, (a', w')) ->
         conversation_id a'
         = latest (completed_ids (events s)) (conversation_id a)).
Proof.
  split.
  - intros t a' w' H.
    destruct (responses_create c (advisor_request a q ins tl m false))
      as [r|e] eqn:E.
    + rewrite (_sync_response_spec _ _ _ _ _ _ _ _ E) in H.
      injection H as _ <- _. exists r. split; reflexivity.
    + unfold _sync_response, remote, notify, modify, lift, self, bind in H.
      cbn [fst snd] in H. rewrite E in H. discriminate.
  - intros s t a' w' E H. destruct a as [prev].
    rewrite (_stream_response_spec _ _ _ _ _ _ _ _ E) in H.
    destruct (interrupted s); [discriminate|].
    injection H as _ <- _. reflexivity.
Qed.





End SyncAndStream.

(* ================================================================== *)
(** * Function tools: errors become text                              *)
(* ================================================================== *)

Section ToolErrors.

Import PersonalAssistant.

Variable W : Type.
Variable tzinfo : Type.
Variable pytz_timezone : string -> M W tzinfo.
Variable datetime_now_strftime : tzinfo -> W -> string * W.
Variable eval_str : string -> M W string.
Variable random_randint : nat -> nat -> W -> string * W.
Variable random_choice : list string -> W -> string * W.

(** What leaves [calculate] is never an instance of [Exception], and
    what leaves [get_current_time] never an [UnknownTimeZoneError]. *)
Lemma calculate_propagates_no_Exception expression w :
  match fst (calculate W eval_str expression w) with
  | Return _ => True
  | Raise e => isinstance e Exception = false
  end.
Proof.
  unfold PersonalAssistant.calculate, try_except, bind, ret.
  destruct (eval_str expression w) as [[v|e] w']; cbn [fst]; [exact I|].
  destruct (isinstance e Exception) eqn:E; cbn [fst]; [exact I|exact E].
Qed.

Lemma get_current_time_propagates_no_UnknownTimeZoneError timezone w :
  match fst (get_current_time W tzinfo pytz_timezone datetime_now_strftime
                               timezone w) with
  | Return _ => True
  | Raise e => isinstance e UnknownTimeZoneError = false
  end.
Proof.
  unfold PersonalAssistant.get_current_time, try_except, bind, ret, step.
  destruct (pytz_timezone timezone w) as [[tz|e] w']; cbn [fst];
    [exact I|].
  destruct (isinstance e UnknownTimeZoneError) eqn:E; cbn [fst];
    [exact I|exact E].
Qed.


End ToolErrors.

Section ToolErrorsExample.

Import PersonalAssistant Examples.


End ToolErrorsExample.

(* ================================================================== *)
(** * The bounded tool loop                                           *)
(* ================================================================== *)

Section ToolLoop.

Import Orchestration Examples.

Variable submitTurn : string -> option string -> AggregationResult.
Variable submitToolResult :
  string -> string -> option string -> list (ToolCall * string) ->
  AggregationResult.
Variable registry : ToolRegistry.
Variable max_depth : nat.

(** Dispatching a tool call never fails with the loop's own error. *)
Lemma tool_output_not_exceeded (c : ToolCall) :
  tool_output registry c <> inl ToolLoopExceededError.
Proof.
  unfold tool_output, invokeLocal.
  destruct (lookup registry (toolName c)) as [t|]; [|discriminate].
  destruct (tool_kind t); [|discriminate].
  destruct (handler t) as [h|]; [|discriminate].
  destruct (h (args c)); discriminate.
Qed.

(** Each round of the loop executes one tool call and uses up one unit
    of depth. *)
Lemma tool_loop_rounds (depth : nat) :
  forall prev done r,
    let out := tool_loop submitToolResult registry depth prev done r in
    length (snd out) <= length done + depth
    /\ (fst out = inl ToolLoopExceededError ->
        length (snd out) = length done + depth).
Proof.
  induction depth as [|depth IH]; intros prev done r; cbv zeta.
  - cbn [tool_loop]. destruct (awaiting r) as [c|]; cbn.
    + destruct (failed r); cbn; split; try lia; discriminate.
    + split; [lia|discriminate].
  - cbn [tool_loop]. destruct (awaiting r) as [c|]; cbn [fst snd].
    + destruct (failed r); cbn [fst snd]; [split; [lia|discriminate]|].
      destruct (tool_output registry c) as [e|o] eqn:E; cbn [fst snd].
      * split; [lia|]. intros H.
        assert (e = ToolLoopExceededError) by congruence. subst e.
        now apply tool_output_not_exceeded in E.
      * specialize (IH prev ((c, o) :: done)
                       (submitToolResult (callId c) o prev ((c, o) :: done))).
        cbv zeta in IH. cbn [length] in IH. destruct IH as [A B].
        split; [lia|]. intros H. rewrite (B H). lia.
    + split; [lia|discriminate].
Qed.

(** A reply on which the service insists is a request for local tool
    execution. *)
Lemma insists_pauses (r : AggregationResult) :
  insists registry r -> Rounds.pauses r = true.
Proof.
  intros [F [c [o [A _]]]]. unfold Rounds.pauses. now rewrite F, A.
Qed.

(** The loop gives up exactly when [depth] rounds have been run and the
    reply in hand is one more request. *)
Lemma tool_loop_exceeded_iff (depth : nat) :
  forall prev done r,
    fst (tool_loop submitToolResult registry depth prev done r)
    = inl ToolLoopExceededError
    <-> Rounds.asks_after submitToolResult registry depth prev (done, r)
        = true.
Proof.
  induction depth as [|depth IH]; intros prev done r.
  - cbn [tool_loop]. unfold Rounds.asks_after, Rounds.pauses.
    cbn [Rounds.after_rounds snd].
    destruct (awaiting r) as [c|]; destruct (failed r); cbn;
      split; intros H; try discriminate H; reflexivity.
  - cbn [tool_loop]. unfold Rounds.asks_after.
    cbn [Rounds.after_rounds]. unfold Rounds.next_round. cbn [fst snd].
    destruct (awaiting r) as [c|];
      [|cbn; split; intros H; discriminate H].
    destruct (failed r); [cbn; split; intros H; discriminate H|].
    destruct (tool_output registry c) as [e|o] eqn:E.
    + cbn [fst]. split; intros H; [|discriminate H].
      assert (e = ToolLoopExceededError) by congruence. subst e.
      now apply tool_output_not_exceeded in E.
    + cbv zeta. apply IH.
Qed.

(** A service that insists on every reply carrying at most
    [length done + depth] tool outputs asks beyond [depth] rounds. *)
Lemma insisting_asks_after (depth : nat) :
  forall prev done r,
    insists registry r ->
    (forall i o p d, length d <= length done + depth ->
                     insists registry (submitToolResult i o p d)) ->
    Rounds.asks_after submitToolResult registry depth prev (done, r) = true.
Proof.
  induction depth as [|depth IH]; intros prev done r I All.
  - unfold Rounds.asks_after. cbn [Rounds.after_rounds snd].
    now apply insists_pauses.
  - destruct I as [F [c [o [A T]]]].
    unfold Rounds.asks_after. cbn [Rounds.after_rounds].
    unfold Rounds.next_round. cbn [fst snd]. rewrite A, F, T. cbv zeta.
    apply IH.
    + apply All. cbn [length]. lia.
    + intros i o' p d Hd. apply All. cbn [length] in Hd. lia.
Qed.

(** C6: [run] is a total function; it executes at most [max_depth] tool
    calls whatever the service answers and whatever the handlers return.
    It fails with [ToolLoopExceededError] exactly when the service
    requests local tool execution beyond the bound, that is on its
    first reply and on the reply to each of the [max_depth]
    continuations of the run, whatever it would have answered
    afterwards; [max_depth] rounds have then been run and the
    conversation state is as it was.  A service that insists on every
    reply that carries at most [max_depth] tool outputs is one such. *)
Theorem run_bounded_by_max_depth (st : ConversationState) (u : string) :
  let out := run submitTurn submitToolResult registry max_depth st u in
  length (snd out) <= max_depth
  /\ (fst (fst out) = inl ToolLoopExceededError
      <-> Rounds.asks_beyond submitTurn submitToolResult registry
                             max_depth st u = true)
  /\ (fst (fst out) = inl ToolLoopExceededError ->
      snd (fst out) = st /\ length (snd out) = max_depth)
  /\ (insists registry (submitTurn u (lastTurnId st)) ->
      (forall i o p d, length d <= max_depth ->
                       insists registry (submitToolResult i o p d)) ->
      fst (fst out) = inl ToolLoopExceededError
      /\ snd (fst out) = st
      /\ length (snd out) = max_depth).
Proof.
  cbv zeta. unfold run, Rounds.asks_beyond.
  pose proof (tool_loop_rounds max_depth (lastTurnId st) []
                (submitTurn u (lastTurnId st))) as [A B].
  pose proof (tool_loop_exceeded_iff max_depth (lastTurnId st) []
                (submitTurn u (lastTurnId st))) as E.
  pose proof (insisting_asks_after max_depth (lastTurnId st) []
                (submitTurn u (lastTurnId st))) as I.
  cbv zeta in B.
  destruct (tool_loop _ _ _ _ _ _) as [[e|r] done]; cbn [fst snd] in *.
  - split; [exact A|]. split; [exact E|].
    split; [intros H; split; [reflexivity | exact (B H)]|].
    intros H All.
    assert (X : inl e = inl ToolLoopExceededError
                :> error + AggregationResult)
      by (apply E, I; [exact H | exact All]).
    repeat split; [exact X | exact (B X)].
  - split; [exact A|]. split; [exact E|].
    split; [intros H; discriminate H|].
    intros H All.
    assert (X : inr r = inl ToolLoopExceededError
                :> error + AggregationResult)
      by (apply E, I; [exact H | exact All]).
    discriminate X.
Qed.

End ToolLoop.

Section ToolLoopExample.

Import Orchestration Examples.

Lemma run_bounded_by_max_depth_witness :
  let st := {| lastTurnId := Some "t0"; transcript := [] |} in
  let asks := fun (_ : string) (_ : option string) => asks_again in
  let out := run asks Rounds.asks_three_times [calc] 2 st "2+2?" in
  let out' := run asks Rounds.asks_three_times [calc] 3 st "2+2?" in
  Rounds.asks_beyond asks Rounds.asks_three_times [calc] 2 st "2+2?" = true
  /\ fst (fst out) = inl ToolLoopExceededError
  /\ snd (fst out) = st
  /\ length (snd out) = 2
  /\ fst (fst out') = inr Rounds.four.
Proof.
  cbv zeta.
  pose proof (run_bounded_by_max_depth
                (fun _ _ => asks_again) Rounds.asks_three_times [calc] 2
                {| lastTurnId := Some "t0"; transcript := [] |} "2+2?")
    as [_ [E [K _]]].
  cbv zeta in E, K.
  assert (B : Rounds.asks_beyond (fun _ _ => asks_again)
                                 Rounds.asks_three_times [calc] 2
                                 {| lastTurnId := Some "t0";
                                    transcript := [] |} "2+2?" = true)
    by reflexivity.
  split; [exact B|].
  split; [exact (proj2 E B)|].
  split; [exact (proj1 (K (proj2 E B)))|].
  split; [exact (proj2 (K (proj2 E B)))|reflexivity].
Defined.

End ToolLoopExample.

(* ================================================================== *)
(** * upload_pdf                                                      *)
(* ================================================================== *)

Section Upload.

Import Demo1 Demo1Ext Observations Examples.

(** [upload_pdf] once the vector store exists: the world after the three
    steps, then success or the handler. *)
Lemma upload_pdf_unfold c open_rb path a w :
  truthy (vector_store_id a) = true ->
  let w0 := write (("Uploading " ++ basename path ++ "...") ++ nl) w in
  let w1 := fold_left (fun w c => log c w) (upload_calls c open_rb a path) w0 in
  upload_pdf c open_rb path (a, w)
  = match upload_steps c open_rb a path with
    | Return file_id =>
        (Return [("file", basename path); ("status", "success");
                 ("file_id", file_id)],
         (a, write (("✓ Successfully uploaded: " ++ basename path) ++ nl) w1))
    | Raise e =>
        if isinstance e Exception
        then (Return [("file", basename path); ("status", "failed");
                      ("error", str e)],
              (a, write (("✗ Failed to upload " ++ basename path ++ ": "
                                                ++ str e) ++ nl) w1))
        else (Raise e, (a, w1))
    end.
Proof.
  intros Hv. cbv zeta. unfold upload_pdf, bind at 1. cbn [self fst].
  rewrite Hv. cbn [negb].
  unfold upload_steps, upload_calls, try_except, println, print, remote,
    notify, modify, lift, bind, ret.
  cbn [fst snd].
  destruct (open_rb path) as [[]|e]; cbn [fold_left].
  - destruct (files_create c path) as [fid|e]; cbn [fold_left].
    + destruct (vector_stores_files_create c (vector_store_id a) fid)
        as [[]|e]; cbn [fold_left]; [reflexivity|].
      destruct (isinstance e Exception); reflexivity.
    + destruct (isinstance e Exception); reflexivity.
  - destruct (isinstance e Exception); reflexivity.
Qed.

Lemma remote_log_logged (calls : list remote_call) (w : world) :
  remote_log (fold_left (fun w c => log c w) calls w)
  = (remote_log w ++ calls)%list.
Proof.
  revert w. induction calls as [|c calls IH]; intros w; cbn [fold_left].
  - now rewrite app_nil_r.
  - rewrite IH. cbn [log remote_log]. now rewrite <- app_assoc.
Qed.

Lemma stdout_logged (calls : list remote_call) (w : world) :
  stdout (fold_left (fun w c => log c w) calls w) = stdout w.
Proof.
  revert w. induction calls as [|c calls IH]; intros w; cbn [fold_left].
  - reflexivity.
  - now rewrite IH.
Qed.

(** X1: with a vector store, [upload_pdf] reports failure in the dict it
    returns: the status is "success" with the new file id when the file
    could be opened, created remotely and attached, and "failed" with the
    text of the first error otherwise; no error leaves the call, and the
    assistant is as before. *)
Theorem upload_pdf_reports_failure c open_rb path a w :
  truthy (vector_store_id a) = true ->
  let r := upload_pdf c open_rb path (a, w) in
  fst (snd r) = a
  /\ no_error (fst r)
  /\ (forall file_id,
         upload_steps c open_rb a path = Return file_id ->
         fst r = Return [("file", basename path); ("status", "success");
                         ("file_id", file_id)])
  /\ (forall e,
         upload_steps c open_rb a path = Raise e ->
         isinstance e Exception = true ->
         fst r = Return [("file", basename path); ("status", "failed");
                         ("error", str e)]).
Proof.
  intros Hv. cbv zeta. rewrite (upload_pdf_unfold _ _ _ _ _ Hv). cbv zeta.
  destruct (upload_steps c open_rb a path) as [fid|e].
  - cbn [fst snd no_error]. repeat split; try exact I.
    + intros f H. now injection H as <-.
    + discriminate.
  - destruct (isinstance e Exception) eqn:E; cbn [fst snd no_error].
    + repeat split; try exact I; [discriminate|].
      intros e' H _. now injection H as <-.
    + repeat split; try exact E; [discriminate|].
      intros e' H E'. injection H as <-. congruence.
Qed.

Lemma upload_pdf_reports_failure_witness :
  let r := upload_pdf (broken_service [] connection_lost) (fun _ => Return tt)
                      "./pdfs/a.pdf" (ready, empty_world) in
  fst (snd r) = ready
  /\ fst r = Return [("file", "a.pdf"); ("status", "failed");
                     ("error", "Connection error.")].
Proof.
  pose proof (upload_pdf_reports_failure
                (broken_service [] connection_lost) (fun _ => Return tt)
                "./pdfs/a.pdf" ready empty_world eq_refl) as [A [_ [_ B]]].
  split; [exact A|]. exact (B connection_lost eq_refl eq_refl).
Defined.

(** X2: the remote calls of [upload_pdf] come in order and stop at the
    first failure: none when the file cannot be opened, only
    [files.create] when that call fails, and otherwise [files.create]
    followed by the attachment of the file id it returned to the
    assistant's vector store. *)
Theorem upload_pdf_call_order c open_rb path a w :
  truthy (vector_store_id a) = true ->
  let log' := remote_log (snd (snd (upload_pdf c open_rb path (a, w)))) in
  (forall e, open_rb path = Raise e -> log' = remote_log w)
  /\ (forall e,
         open_rb path = Return tt -> files_create c path = Raise e ->
         log' = (remote_log w ++ [call_files_create path])%list)
  /\ (forall file_id,
         open_rb path = Return tt -> files_create c path = Return file_id ->
         log' = (remote_log w
                 ++ [call_files_create path;
                     call_vector_stores_files_create (vector_store_id a)
                                                     file_id])%list).
Proof.
  intros Hv. cbv zeta.
  assert (L : remote_log (snd (snd (upload_pdf c open_rb path (a, w))))
              = (remote_log w ++ upload_calls c open_rb a path)%list).
  { rewrite (upload_pdf_unfold _ _ _ _ _ Hv). cbv zeta.
    destruct (upload_steps c open_rb a path) as [fid|e];
      [|destruct (isinstance e Exception)]; cbn [fst snd write remote_log];
      now rewrite remote_log_logged. }
  rewrite L. unfold upload_calls. repeat split.
  - intros e ->. now rewrite app_nil_r.
  - intros e -> ->. reflexivity.
  - intros fid -> ->. reflexivity.
Qed.

Lemma upload_pdf_call_order_witness :
  remote_log (snd (snd (upload_pdf (service "r" "t" []) (fun _ => Return tt)
                                   "./pdfs/a.pdf" (ready, empty_world))))
  = [call_files_create "./pdfs/a.pdf";
     call_vector_stores_files_create (Some "vs_1") "file_1"].
Proof.
  exact (proj2 (proj2 (upload_pdf_call_order
                         (service "r" "t" []) (fun _ => Return tt)
                         "./pdfs/a.pdf" ready empty_world eq_refl))
               "file_1" eq_refl eq_refl).
Defined.

End Upload.

(* ================================================================== *)
(** * The object across calls of its methods                          *)
(* ================================================================== *)

Section Object1.

Import Demo1 Demo1Ext Aggregation Observations Examples.

Lemma create_vector_store_unfold c name a w :
  let w0 := log (call_vector_stores_create name)
                (write (("Creating vector store: " ++ name) ++ nl) w) in
  create_vector_store c name (a, w)
  = match vector_stores_create c name with
    | Raise e => (Raise e, (a, w0))
    | Return vs =>
        (Return vs,
         (set_vector_store_id (Some vs) a,
          write (("✓ Created vector store with ID: " ++ vs) ++ nl) w0))
    end.
Proof.
  cbv zeta. unfold create_vector_store, println, print, remote, notify,
    update, modify, lift, bind, ret.
  cbn [fst snd]. destruct (vector_stores_create c name); reflexivity.
Qed.

Lemma cleanup_unfold d a w :
  cleanup d (a, w)
  = if truthy (vector_store_id a) then
      match fst (d (vector_store_id a) w) with
      | Return _ =>
          (Return tt,
           (a, write (("✓ Cleaned up vector store: "
                         ++ show (vector_store_id a)) ++ nl)
                     (snd (d (vector_store_id a) w))))
      | Raise e =>
          if isinstance e Exception
          then (Return tt,
                (a, write (("✗ Error cleaning up: " ++ str e) ++ nl)
                          (snd (d (vector_store_id a) w))))
          else (Raise e, (a, snd (d (vector_store_id a) w)))
      end
    else (Return tt, (a, w)).
Proof.
  unfold cleanup, bind at 1. cbn [self fst].
  destruct (truthy (vector_store_id a)); [|reflexivity].
  unfold try_except, in_world, println, print, modify, bind. cbn [fst snd].
  destruct (fst (d (vector_store_id a) w)) as [[]|e]; [reflexivity|].
  destruct (isinstance e Exception); reflexivity.
Qed.

(** One call: the history grows by at most one entry, at its end, and
    only a search adds one; the vector store id changes only in
    [create_vector_store]. *)
Lemma exec_history (o : op) a w :
  exists added,
    conversation_history (fst (exec o (a, w)))
    = (conversation_history a ++ added)%list
    /\ length added <= (if is_search o then 1 else 0)
    /\ (is_create o = false ->
        vector_store_id (fst (exec o (a, w))) = vector_store_id a).
Proof.
  assert (Same : forall a', a' = a ->
            exists added,
              conversation_history a' = (conversation_history a ++ added)%list
              /\ length added <= 0 /\ vector_store_id a' = vector_store_id a).
  { intros a' ->. exists []. rewrite app_nil_r. repeat split. cbn. lia. }
  assert (Weaken : forall a' (b : bool),
            (exists added,
                conversation_history a'
                = (conversation_history a ++ added)%list
                /\ length added <= 0 /\ vector_store_id a' = vector_store_id a) ->
            exists added,
              conversation_history a' = (conversation_history a ++ added)%list
              /\ length added <= (if b then 1 else 0)
              /\ (is_create o = false -> vector_store_id a' = vector_store_id a)).
  { intros a' b [added [H1 [H2 H3]]]. exists added.
    repeat split; [exact H1|destruct b; lia|intros _; exact H3]. }
  assert (One : forall e,
            exists added,
              conversation_history (append_history e a)
              = (conversation_history a ++ added)%list
              /\ length added <= 1
              /\ (is_create o = false ->
                  vector_store_id (append_history e a) = vector_store_id a)).
  { intros e. exists [e]. split; [reflexivity|].
    split; [cbn; lia|]. intros _. reflexivity. }
  destruct o as [c name|c open_rb path|c q m|c q m|d]; cbn [exec is_search].
  - rewrite create_vector_store_unfold. cbv zeta.
    destruct (vector_stores_create c name) as [vs|e]; cbn [fst snd].
    + exists []. rewrite app_nil_r. repeat split; [cbn; lia|discriminate].
    + apply (Weaken a false), Same. reflexivity.
  - apply (Weaken _ false), Same.
    destruct (truthy (vector_store_id a)) eqn:Hv.
    + rewrite (upload_pdf_unfold _ _ _ _ _ Hv). cbv zeta.
      destruct (upload_steps c open_rb a path) as [fid|e];
        [|destruct (isinstance e Exception)]; reflexivity.
    + now rewrite upload_pdf_guard.
  - rewrite search_unfold.
    destruct (negb (truthy (vector_store_id a)));
      [apply (Weaken a true), Same; reflexivity|].
    cbv zeta.
    destruct (responses_create c (search_request a q m false)) as [r|e];
      [|apply (Weaken a true), Same; reflexivity].
    destruct (last_output_text r);
      [apply One|apply (Weaken a true), Same; reflexivity].
  - unfold search_streaming. rewrite search_streaming_with_unfold.
    destruct (negb (truthy (vector_store_id a)));
      [apply (Weaken a true), Same; reflexivity|].
    cbv zeta.
    destruct (responses_create_stream c (search_request a q m true)) as [s|e];
      [|apply (Weaken a true), Same; reflexivity].
    destruct (interrupted s);
      [apply (Weaken a true), Same; reflexivity|apply One].
  - apply (Weaken _ false), Same. rewrite cleanup_unfold.
    destruct (truthy (vector_store_id a)); [|reflexivity].
    destruct (fst (d (vector_store_id a) w)) as [[]|e]; [reflexivity|].
    destruct (isinstance e Exception); reflexivity.
Qed.

(** X3: [conversation_history] is append-only.  After any sequence of
    method calls, each of which may return or raise, the history the
    assistant started with is a prefix of its history, at most one entry
    has been added per search, and without a [create_vector_store] the
    vector store id is the one it started with. *)
Theorem history_is_append_only (ops : list op) :
  forall st,
  exists added,
    conversation_history (fst (exec_all ops st))
    = (conversation_history (fst st) ++ added)%list
    /\ length added <= length (filter is_search ops)
    /\ (existsb is_create ops = false ->
        vector_store_id (fst (exec_all ops st)) = vector_store_id (fst st)).
Proof.
  induction ops as [|o ops IH]; intros [a w].
  - exists []. cbn. rewrite app_nil_r. repeat split. lia.
  - cbn [exec_all fold_left]. fold (exec_all ops (exec o (a, w))).
    destruct (exec_history o a w) as [add1 [H1 [L1 V1]]].
    destruct (exec o (a, w)) as [a1 w1] eqn:E. cbn [fst] in *.
    destruct (IH (a1, w1)) as [add2 [H2 [L2 V2]]]. cbn [fst] in *.
    exists (add1 ++ add2)%list. repeat split.
    + now rewrite H2, H1, app_assoc.
    + rewrite length_app. cbn [filter].
      destruct (is_search o); cbn [length]; lia.
    + cbn [existsb]. intros H. apply orb_false_elim in H as [Hc Hr].
      now rewrite (V2 Hr), (V1 Hc).
Qed.

(** X4: a search that raises leaves the assistant as it was: no entry is
    added for it, whether the guard, the remote call, the extraction of
    the text or the stream failed; a search that returns has added exactly
    one entry, for the query asked. *)
Theorem failed_search_leaves_assistant c q m a w :
  (forall e, fst (search c q m (a, w)) = Raise e ->
             fst (snd (search c q m (a, w))) = a)
  /\ (forall e, fst (search_streaming c q m (a, w)) = Raise e ->
                fst (snd (search_streaming c q m (a, w))) = a)
  /\ (forall t, fst (search c q m (a, w)) = Return t ->
                exists i,
                  fst (snd (search c q m (a, w)))
                  = append_history {| query := q; Demo1.response := t;
                                      response_id := i |} a)
  /\ (fst (search_streaming c q m (a, w)) = Return tt ->
      exists t i,
        fst (snd (search_streaming c q m (a, w)))
        = append_history {| query := q; Demo1.response := t;
                            response_id := i |} a).
Proof.
  unfold search_streaming.
  rewrite search_unfold, search_streaming_with_unfold.
  destruct (negb (truthy (vector_store_id a))).
  { repeat split; try discriminate; reflexivity. }
  cbv zeta.
  repeat split.
  - destruct (responses_create c (search_request a q m false)) as [r|e'];
      [|reflexivity].
    destruct (last_output_text r); [discriminate|reflexivity].
  - destruct (responses_create_stream c (search_request a q m true))
      as [s|e']; [|reflexivity].
    destruct (interrupted s); [reflexivity|discriminate].
  - destruct (responses_create c (search_request a q m false)) as [r|e'];
      [|discriminate].
    destruct (last_output_text r) as [t'|]; [|discriminate].
    intros t H. injection H as <-. eexists. reflexivity.
  - destruct (responses_create_stream c (search_request a q m true))
      as [s|e']; [|discriminate].
    destruct (interrupted s); [discriminate|].
    intros _. eexists. eexists. reflexivity.
Qed.

Lemma failed_search_leaves_assistant_witness :
  fst (snd (search (broken_service [] connection_lost) "q" "gpt-4o-mini"
                   (after_one_turn, empty_world)))
  = after_one_turn
  /\ fst (snd (search_streaming
                 (broken_service [TextDelta "par"] connection_lost)
                 "q" "gpt-4o-mini" (after_one_turn, empty_world)))
     = after_one_turn.
Proof.
  pose proof (failed_search_leaves_assistant
                (broken_service [] connection_lost) "q" "gpt-4o-mini"
                after_one_turn empty_world) as [A _].
  pose proof (failed_search_leaves_assistant
                (broken_service [TextDelta "par"] connection_lost)
                "q" "gpt-4o-mini" after_one_turn empty_world) as [_ [B _]].
  split; [exact (A connection_lost eq_refl)|exact (B connection_lost eq_refl)].
Defined.

End Object1.

(* ================================================================== *)
(** * Requests issued and text shown by the searches                  *)
(* ================================================================== *)

Section Requests1.

Import Demo1 Demo1Ext Aggregation Observations Examples.

Lemma remote_log_printed (ds : list string) (w : world) :
  remote_log (observe_all print_delta ds w) = remote_log w.
Proof.
  unfold observe_all. revert w.
  induction ds as [|d ds IH]; intros w; cbn [fold_left]; [reflexivity|].
  now rewrite IH.
Qed.

Lemma stdout_printed (ds : list string) (w : world) :
  stdout (observe_all print_delta ds w) = stdout w ++ join ds.
Proof.
  unfold observe_all. revert w.
  induction ds as [|d ds IH]; intros w; cbn [fold_left].
  - cbn. now rewrite append_nil_r.
  - rewrite IH, join_cons. unfold print_delta. cbn [write stdout].
    now rewrite append_nil_r, append_assoc.
Qed.

(** A search that passes the guard issues one request, whatever comes
    of it. *)
Lemma search_log c q m a w :
  truthy (vector_store_id a) = true ->
  remote_log (snd (snd (search c q m (a, w))))
  = (remote_log w ++ [call_responses_create (search_request a q m false)])%list.
Proof.
  intros Hv. rewrite search_unfold, Hv. cbn [negb]. cbv zeta.
  destruct (responses_create c (search_request a q m false)) as [r|e];
    [|reflexivity].
  destruct (last_output_text r); reflexivity.
Qed.

Lemma search_streaming_log c q m a w :
  truthy (vector_store_id a) = true ->
  remote_log (snd (snd (search_streaming c q m (a, w))))
  = (remote_log w ++ [call_responses_create (search_request a q m true)])%list.
Proof.
  intros Hv. unfold search_streaming.
  rewrite search_streaming_with_unfold, Hv. cbn [negb]. cbv zeta.
  destruct (responses_create_stream c (search_request a q m true)) as [s|e];
    [|reflexivity].
  destruct (interrupted s); cbn [fst snd closing write remote_log];
    now rewrite remote_log_printed.
Qed.

(** X5: what [search_streaming] shows is what it stores.  When the
    stream ends normally, the console has gained the header, the text of
    the new history entry and the closing rule, and nothing else; when the
    stream breaks, the partial text has been shown but no entry holds
    it. *)
Theorem shown_text_is_stored_text c q m a w s :
  truthy (vector_store_id a) = true ->
  responses_create_stream c (search_request a q m true) = Return s ->
  let r := search_streaming c q m (a, w) in
  let shown := join (deltas (events s)) in
  let header := nl ++ "Searching: " ++ q ++ nl ++ str_mul "=" 60 ++ nl
                   ++ "Response: " in
  (interrupted s = None ->
   stdout (snd (snd r))
   = stdout w ++ header ++ shown ++ nl ++ str_mul "=" 60 ++ nl
   /\ exists i,
       fst (snd r) = append_history {| query := q; Demo1.response := shown;
                                       response_id := i |} a)
  /\ (forall e,
         interrupted s = Some e ->
         stdout (snd (snd r)) = stdout w ++ header ++ shown
         /\ fst (snd r) = a).
Proof.
  intros Hv Hs. cbv zeta. unfold search_streaming.
  rewrite search_streaming_with_unfold, Hv. cbn [negb]. cbv zeta.
  rewrite Hs. split.
  - intros ->. cbn [fst snd]. split; [|eexists; reflexivity].
    unfold closing. cbn [write stdout]. rewrite stdout_printed.
    unfold preamble1. cbn [log write stdout].
    rewrite !append_assoc. reflexivity.
  - intros e ->. cbn [fst snd]. split; [|reflexivity].
    rewrite stdout_printed. unfold preamble1. cbn [log write stdout].
    rewrite !append_assoc. reflexivity.
Qed.

Lemma shown_text_is_stored_text_witness :
  let r := search_streaming
             (service "resp_2" "ab"
                      [TextDelta "a"; TextDelta "b"; TurnCompleted "resp_2"])
             "q" "gpt-4o-mini" (ready, empty_world) in
  stdout (snd (snd r))
  = "" ++ (nl ++ "Searching: " ++ "q" ++ nl ++ str_mul "=" 60 ++ nl
              ++ "Response: ") ++ "ab" ++ nl ++ str_mul "=" 60 ++ nl
  /\ exists i,
      fst (snd r) = append_history {| query := "q"; Demo1.response := "ab";
                                      response_id := i |} ready.
Proof.
  exact (proj1 (shown_text_is_stored_text
                  (service "resp_2" "ab"
                           [TextDelta "a"; TextDelta "b";
                            TurnCompleted "resp_2"])
                  "q" "gpt-4o-mini" ready empty_world
                  {| events := [TextDelta "a"; TextDelta "b";
                                TurnCompleted "resp_2"];
                     interrupted := None |}
                  eq_refl eq_refl) eq_refl).
Defined.

(** X6: [cleanup] never changes the assistant, so the vector store id
    stays set after the store is deleted and a later search still passes
    the guard and sends a request naming that store.  Without a vector
    store it does nothing at all, and when the deletion fails with an
    error the error is printed and the call returns. *)
Theorem cleanup_keeps_vector_store_id d a w :
  let r := cleanup d (a, w) in
  fst (snd r) = a
  /\ no_error (fst r)
  /\ (truthy (vector_store_id a) = false -> r = (Return tt, (a, w)))
  /\ (fails_with_errors d -> fst r = Return tt)
  /\ (truthy (vector_store_id a) = true ->
      forall c q m,
        remote_log (snd (snd (search c q m (snd r))))
        = (remote_log (snd (snd r))
           ++ [call_responses_create
                 {| input := q;
                    OpenAI.model := m;
                    OpenAI.instructions := instructions;
                    previous_response_id := previous_response_id_of a;
                    tools := [file_search [vector_store_id a] 5];
                    stream_flag := false |}])%list).
Proof.
  cbv zeta.
  assert (A : fst (snd (cleanup d (a, w))) = a).
  { rewrite cleanup_unfold.
    destruct (truthy (vector_store_id a)); [|reflexivity].
    destruct (fst (d (vector_store_id a) w)) as [[]|e]; [reflexivity|].
    destruct (isinstance e Exception); reflexivity. }
  split; [exact A|]. split; [|split; [|split]].
  - rewrite cleanup_unfold.
    destruct (truthy (vector_store_id a)); [|exact I].
    destruct (fst (d (vector_store_id a) w)) as [[]|e]; [exact I|].
    destruct (isinstance e Exception) eqn:E; [exact I|exact E].
  - intros H. now rewrite cleanup_unfold, H.
  - intros F. rewrite cleanup_unfold.
    destruct (truthy (vector_store_id a)); [|reflexivity].
    destruct (fst (d (vector_store_id a) w)) as [[]|e] eqn:E; [reflexivity|].
    now rewrite (F _ _ _ E).
  - intros Hv c q m.
    destruct (cleanup d (a, w)) as [r [a' w']]. cbn [fst snd] in *. subst a'.
    now rewrite (search_log _ _ _ _ _ Hv).
Qed.

Lemma cleanup_keeps_vector_store_id_witness :
  let r := cleanup (fun _ w => (Raise connection_lost, w)) (ready, empty_world) in
  fst r = Return tt
  /\ forall c q m,
      remote_log (snd (snd (search c q m (snd r))))
      = (remote_log (snd (snd r))
         ++ [call_responses_create
               {| input := q;
                  OpenAI.model := m;
                  OpenAI.instructions := instructions;
                  previous_response_id := None;
                  tools := [file_search [Some "vs_1"] 5];
                  stream_flag := false |}])%list.
Proof.
  pose proof (cleanup_keeps_vector_store_id
                (fun _ w => (Raise connection_lost, w)) ready empty_world)
    as [_ [_ [_ [A B]]]].
  split.
  - apply A. intros o w e H. injection H as <-. reflexivity.
  - exact (B eq_refl).
Defined.

(** X7: once [create_vector_store] has returned an id, that id is the
    one every search names: the request carries a single [file_search]
    tool over that store with at most 5 results, and is chained to the
    last history entry.  An empty id counts as no vector store: the guard
    of [search] still raises. *)
Theorem created_store_is_searched c name a w vs :
  vector_stores_create c name = Return vs ->
  let r := create_vector_store c name (a, w) in
  fst r = Return vs
  /\ vector_store_id (fst (snd r)) = Some vs
  /\ conversation_history (fst (snd r)) = conversation_history a
  /\ (vs <> "" ->
      forall c' q m,
        remote_log (snd (snd (search c' q m (snd r))))
        = (remote_log (snd (snd r))
           ++ [call_responses_create
                 {| input := q;
                    OpenAI.model := m;
                    OpenAI.instructions := instructions;
                    previous_response_id := previous_response_id_of a;
                    tools := [file_search [Some vs] 5];
                    stream_flag := false |}])%list)
  /\ (vs = "" ->
      forall c' q m,
        fst (search c' q m (snd r)) = Raise (mkExn ValueError not_created)).
Proof.
  intros Hc. cbv zeta. rewrite create_vector_store_unfold. cbv zeta.
  rewrite Hc. cbn [fst snd]. repeat split.
  - intros Hne c' q m. rewrite search_log.
    + reflexivity.
    + cbn. destruct vs; [congruence|reflexivity].
  - intros -> c' q m. now rewrite search_unfold.
Qed.

Lemma created_store_is_searched_witness :
  let r := create_vector_store (service "r" "t" []) "Research Papers Store"
                               (__init__, empty_world) in
  fst r = Return "vs_1"
  /\ vector_store_id (fst (snd r)) = Some "vs_1"
  /\ forall c' q m,
      remote_log (snd (snd (search c' q m (snd r))))
      = (remote_log (snd (snd r))
         ++ [call_responses_create
               {| input := q;
                  OpenAI.model := m;
                  OpenAI.instructions := instructions;
                  previous_response_id := None;
                  tools := [file_search [Some "vs_1"] 5];
                  stream_flag := false |}])%list.
Proof.
  pose proof (created_store_is_searched
                (service "r" "t" []) "Research Papers Store"
                __init__ empty_world "vs_1" eq_refl) as [A [B [_ [C _]]]].
  split; [exact A|]. split; [exact B|]. apply C. discriminate.
Defined.

End Requests1.

(* ================================================================== *)
(** * The advisor across calls of its methods                         *)
(* ================================================================== *)

Section Object2.

Import Demo2 Demo2Ext Aggregation Observations Examples.

Lemma remote_log_echo2 (evs : list event) (w : world) :
  remote_log (fold_left echo2 evs w) = remote_log w.
Proof.
  revert w. induction evs as [|ev evs IH]; intros w; cbn [fold_left];
    [reflexivity|].
  rewrite IH. unfold echo2.
  destruct (is_text_delta ev); [reflexivity|].
  destruct (is_output_item_added ev); [|reflexivity].
  destruct (item ev) as [it|]; [|reflexivity].
  destruct (item_type it =? "code_interpreter_call"); reflexivity.
Qed.

(** Both paths issue one request, whatever comes of it. *)
Lemma _stream_response_log c q ins tl m a w :
  remote_log (snd (snd (_stream_response c q ins tl m (a, w))))
  = (remote_log w
     ++ [call_responses_create (advisor_request a q ins tl m true)])%list.
Proof.
  destruct (responses_create_stream c (advisor_request a q ins tl m true))
    as [s|e] eqn:E.
  - destruct a as [prev].
    rewrite (_stream_response_spec _ _ _ _ _ _ _ _ E).
    destruct (interrupted s); cbn [fst snd closing write remote_log];
      now rewrite remote_log_echo2.
  - unfold _stream_response, println, print, remote, notify, modify, lift,
      self, bind.
    cbn [fst snd]. rewrite E. reflexivity.
Qed.

Lemma _sync_response_unfold c q ins tl m a w :
  let req := advisor_request a q ins tl m false in
  _sync_response c q ins tl m (a, w)
  = match responses_create c req with
    | Return r =>
        (last_output_text r,
         ({| conversation_id := Some (id r) |},
          log (call_responses_create req) w))
    | Raise e => (Raise e, (a, log (call_responses_create req) w))
    end.
Proof.
  cbv zeta.
  destruct (responses_create c (advisor_request a q ins tl m false))
    as [r|e] eqn:E.
  - now rewrite (_sync_response_spec _ _ _ _ _ _ _ _ E).
  - unfold _sync_response, remote, notify, modify, lift, self, bind.
    cbn [fst snd]. rewrite E. reflexivity.
Qed.

Lemma get_investment_suggestion_log c q m uci streaming a w :
  remote_log (snd (snd (get_investment_suggestion c q m uci streaming (a, w))))
  = (remote_log w
     ++ [call_responses_create
           {| input := q;
              OpenAI.model := m;
              OpenAI.instructions := instructions;
              previous_response_id := conversation_id a;
              tools := if uci then [code_interpreter "auto"] else [];
              stream_flag := streaming |}])%list.
Proof.
  unfold get_investment_suggestion. destruct streaming.
  - now rewrite _stream_response_log.
  - rewrite _sync_response_unfold. cbv zeta.
    destruct (responses_create c _); reflexivity.
Qed.

(** X8: the non-streaming path stores the new response id before it
    reads the text.  When the response object has no text to extract (no
    output item, or a last item without content), the call raises, yet
    [conversation_id] already is the id of that response and the next
    request is chained to it. *)
Theorem sync_keeps_id_of_unreadable_response c q m (uci : bool) a w r e :
  responses_create c
    (advisor_request a q instructions
                     (if uci then [code_interpreter "auto"] else []) m false)
  = Return r ->
  last_output_text r = Raise e ->
  let out := get_investment_suggestion c q m uci false (a, w) in
  fst out = Raise e
  /\ conversation_id (fst (snd out)) = Some (id r)
  /\ forall c' q' m' uci' streaming,
      Py.last (remote_log (snd (snd (get_investment_suggestion
                                       c' q' m' uci' streaming (snd out)))))
      = Some (call_responses_create
                {| input := q';
                   OpenAI.model := m';
                   OpenAI.instructions := instructions;
                   previous_response_id := Some (id r);
                   tools := if uci' then [code_interpreter "auto"] else [];
                   stream_flag := streaming |}).
Proof.
  intros Hr He. cbv zeta.
  assert (E : get_investment_suggestion c q m uci false (a, w)
              = (Raise e, ({| conversation_id := Some (id r) |},
                           log (call_responses_create
                                  (advisor_request a q instructions
                                     (if uci then [code_interpreter "auto"]
                                      else []) m false)) w))).
  { unfold get_investment_suggestion. rewrite _sync_response_unfold.
    cbv zeta. now rewrite Hr, He. }
  rewrite E. cbn [fst snd conversation_id]. repeat split.
  intros c' q' m' uci' streaming.
  rewrite get_investment_suggestion_log. now rewrite last_snoc.
Qed.

Lemma sync_keeps_id_of_unreadable_response_witness :
  let c := {| responses_create :=
                fun _ => Return {| id := "resp_9"; output := [] |};
              responses_create_stream := fun _ => Raise connection_lost;
              vector_stores_create := fun _ => Raise connection_lost;
              files_create := fun _ => Raise connection_lost;
              vector_stores_files_create := fun _ _ => Raise connection_lost |} in
  let out := get_investment_suggestion c "q" "gpt-4o-mini" false false
                                       (__init__, empty_world) in
  fst out = Raise (mkExn IndexError "list index out of range")
  /\ conversation_id (fst (snd out)) = Some "resp_9".
Proof.
  cbv zeta.
  pose proof (sync_keeps_id_of_unreadable_response
                {| responses_create :=
                     fun _ => Return {| id := "resp_9"; output := [] |};
                   responses_create_stream := fun _ => Raise connection_lost;
                   vector_stores_create := fun _ => Raise connection_lost;
                   files_create := fun _ => Raise connection_lost;
                   vector_stores_files_create :=
                     fun _ _ => Raise connection_lost |}
                "q" "gpt-4o-mini" false __init__ empty_world
                {| id := "resp_9"; output := [] |}
                (mkExn IndexError "list index out of range")
                eq_refl eq_refl) as [A [B _]].
  split; [exact A|exact B].
Defined.

(** X9: [reset_conversation] returns and unlinks the conversation: the
    next request, streamed or not, carries no [previous_response_id],
    whatever id the advisor held. *)
Theorem reset_unlinks_next_request c q m uci streaming a w :
  let st := snd (reset_conversation (a, w)) in
  fst (reset_conversation (a, w)) = Return tt
  /\ conversation_id (fst st) = None
  /\ remote_log (snd st) = remote_log w
  /\ remote_log (snd (snd (get_investment_suggestion c q m uci streaming st)))
     = (remote_log w
        ++ [call_responses_create
              {| input := q;
                 OpenAI.model := m;
                 OpenAI.instructions := instructions;
                 previous_response_id := None;
                 tools := if uci then [code_interpreter "auto"] else [];
                 stream_flag := streaming |}])%list.
Proof.
  cbv zeta.
  assert (E : reset_conversation (a, w)
              = (Return tt, ({| conversation_id := None |},
                             write ("Conversation reset." ++ nl) w)))
    by reflexivity.
  rewrite E. cbn [fst snd]. repeat split.
  now rewrite get_investment_suggestion_log.
Qed.

(** X10: every entry point of the advisor issues exactly one request per
    call, whether it returns or raises, chained to the id the advisor
    holds.  [analyze_portfolio], [compare_investments] and
    [market_outlook] always stream and always offer the code interpreter,
    also for a portfolio without keys or an empty list of options. *)
Theorem advisor_issues_one_request c m a w :
  let sent := fun (q : string) (uci streaming : bool) =>
    (remote_log w
     ++ [call_responses_create
           {| input := q;
              OpenAI.model := m;
              OpenAI.instructions := instructions;
              previous_response_id := conversation_id a;
              tools := if uci then [code_interpreter "auto"] else [];
              stream_flag := streaming |}])%list in
  (forall q uci streaming,
      remote_log (snd (snd (get_investment_suggestion c q m uci streaming
                                                      (a, w))))
      = sent q uci streaming)
  /\ (forall d,
         remote_log (snd (snd (analyze_portfolio c d m (a, w))))
         = sent (portfolio_query d) true true)
  /\ (forall options criteria,
         remote_log (snd (snd (compare_investments c options criteria m (a, w))))
         = sent (comparison_query options criteria) true true)
  /\ (forall sector,
         remote_log (snd (snd (market_outlook c sector m (a, w))))
         = sent (outlook_query sector) true true).
Proof.
  cbv zeta. repeat split; intros;
    unfold analyze_portfolio, compare_investments, market_outlook;
    now rewrite get_investment_suggestion_log.
Qed.

End Object2.

(* ================================================================== *)
(** * The interactive loop of demo 1                                  *)
(* ================================================================== *)

Section Interactive1.

Import Demo1 Demo1Ext Aggregation Observations Examples.

Variable E : env.

(** One turn of the loop. *)
Lemma interactive_cons line rest a w :
  let w0 := write ((nl ++ "Your question: ") ++ "") w in
  let user_query := strip E line in
  interactive E (line :: rest) (a, w)
  = if is_quit (lower E user_query)
    then (Return tt, (a, write ((nl ++ "Exiting...") ++ nl) w0))
    else if negb (truthy (Some user_query)) then interactive E rest (a, w0)
    else
      match search_streaming (service_at E (length (remote_log w0)))
                             user_query "gpt-4o-mini" (a, w0) with
      | (Return _, st1) => interactive E rest st1
      | (Raise e, st1) =>
          if isinstance e Exception
          then interactive E rest
                           (fst st1, write (("Error: " ++ str e) ++ nl) (snd st1))
          else (Raise e, st1)
      end.
Proof.
  cbv zeta. cbn [interactive]. unfold bind at 1.
  unfold print at 1. unfold modify at 1. cbn [fst snd].
  destruct (is_quit (lower E (strip E line))); [reflexivity|].
  destruct (negb (truthy (Some (strip E line)))); [reflexivity|].
  unfold bind at 1, try_except, calling. cbn [fst snd remote_log write].
  destruct (search_streaming _ _ _ _) as [[[]|e] st1]; [reflexivity|].
  destruct (isinstance e Exception); reflexivity.
Qed.

Lemma interactive_nil a w :
  interactive E [] (a, w)
  = (Raise (mkExn (OtherError "EOFError") "EOF when reading a line"),
     (a, write ((nl ++ "Your question: ") ++ "") w)).
Proof. reflexivity. Qed.

(** X11: the loop stops at the first quit command: the lines typed
    after it are never read, so they change neither the outcome nor the
    state. *)
Theorem interactive_stops_at_quit (pre post : list string) (q : string) :
  is_quit (lower E (strip E q)) = true ->
  forall st,
    interactive E (pre ++ q :: post) st = interactive E (pre ++ [q]) st.
Proof.
  intros Hq. induction pre as [|line pre IH]; intros [a w].
  - cbn [app]. rewrite !interactive_cons. cbv zeta. now rewrite Hq.
  - rewrite <- !app_comm_cons, !interactive_cons. cbv zeta.
    destruct (is_quit (lower E (strip E line))); [reflexivity|].
    destruct (negb (truthy (Some (strip E line)))); [apply IH|].
    destruct (search_streaming _ _ _ _) as [[[]|e] st1]; [apply IH|].
    destruct (isinstance e Exception); [apply IH|reflexivity].
Qed.

(** X12: an error raised while answering a question never ends the
    loop.  When some line is a quit command the loop returns (only an
    exception that is not an [Exception] can leave it); when no line is,
    the loop is left by the [EOFError] of [input] or by such an
    exception. *)
Theorem interactive_contains_errors (stdin : list string) :
  forall st,
    (quits E stdin = true -> no_error (fst (interactive E stdin st)))
    /\ (quits E stdin = false ->
        exists e,
          fst (interactive E stdin st) = Raise e
          /\ (e = mkExn (OtherError "EOFError") "EOF when reading a line"
              \/ isinstance e Exception = false)).
Proof.
  induction stdin as [|line rest IH]; intros [a w].
  - split; [discriminate|]. intros _. eexists. split; [reflexivity|].
    now left.
  - rewrite interactive_cons. cbv zeta. unfold quits in *. cbn [existsb].
    destruct (is_quit (lower E (strip E line))).
    + split; [intros _; exact I|discriminate].
    + cbn [orb].
      destruct (negb (truthy (Some (strip E line)))); [apply IH|].
      destruct (search_streaming _ _ _ _) as [[[]|e] st1]; [apply IH|].
      destruct (isinstance e Exception) eqn:X; [apply IH|].
      split; intros _; [exact X|].
      exists e. split; [reflexivity|now right].
Qed.

Lemma search_streaming_growth c q m a w :
  let st' := snd (search_streaming c q m (a, w)) in
  length (remote_log (snd st')) <= length (remote_log w) + 1
  /\ length (conversation_history (fst st'))
     <= length (conversation_history a) + 1.
Proof.
  cbv zeta. split.
  - destruct (truthy (vector_store_id a)) eqn:Hv.
    + rewrite (search_streaming_log _ _ _ _ _ Hv), length_app. cbn. lia.
    + unfold search_streaming. rewrite search_streaming_with_unfold, Hv.
      cbn. lia.
  - destruct (exec_history (SearchStreaming c q m) a w) as [added [H [L _]]].
    cbn [exec is_search] in *. rewrite H, length_app. lia.
Qed.

(** X13: the loop issues at most one request and stores at most one
    history entry per question, the questions being the lines before the
    first quit command that are not blank once stripped. *)
Theorem interactive_asks_once_per_question (stdin : list string) :
  forall a w,
    let st' := snd (interactive E stdin (a, w)) in
    length (remote_log (snd st'))
    <= length (remote_log w) + length (questions E stdin)
    /\ length (conversation_history (fst st'))
       <= length (conversation_history a) + length (questions E stdin).
Proof.
  induction stdin as [|line rest IH]; intros a w; cbv zeta.
  - cbn. lia.
  - rewrite interactive_cons. cbv zeta. cbn [questions].
    destruct (is_quit (lower E (strip E line))); [cbn; lia|].
    destruct (negb (truthy (Some (strip E line)))).
    + apply (IH a (write ((nl ++ "Your question: ") ++ "") w)).
    + pose proof (search_streaming_growth
                    (service_at E
                       (length (remote_log
                                  (write ((nl ++ "Your question: ") ++ "") w))))
                    (strip E line) "gpt-4o-mini" a
                    (write ((nl ++ "Your question: ") ++ "") w)) as G.
      cbv zeta in G. cbn [length].
      destruct (search_streaming _ _ _ _) as [[[]|e] [a1 w1]];
        cbn [fst snd write remote_log] in *.
      * specialize (IH a1 w1). cbv zeta in IH. lia.
      * destruct (isinstance e Exception).
        -- specialize (IH a1 (write (("Error: " ++ str e) ++ nl) w1)).
           cbv zeta in IH. cbn [write remote_log] in IH. lia.
        -- cbn [fst snd]. lia.
Qed.

End Interactive1.

Section Interactive1Examples.

Import Demo1 Demo1Ext Observations Examples ExtExamples.

Lemma interactive_stops_at_quit_witness :
  interactive (console_env answering)
              (["what is attention?"] ++ "quit" :: ["more"; "lines"])
              (ready, empty_world)
  = interactive (console_env answering)
                (["what is attention?"] ++ ["quit"]) (ready, empty_world).
Proof.
  exact (interactive_stops_at_quit (console_env answering)
           ["what is attention?"] ["more"; "lines"] "quit" eq_refl
           (ready, empty_world)).
Defined.

Lemma interactive_contains_errors_witness :
  no_error (fst (interactive (console_env offline)
                             ["first"; "second"; "exit"]
                             (ready, empty_world)))
  /\ exists e,
      fst (interactive (console_env offline) ["first"; "second"]
                       (ready, empty_world)) = Raise e
      /\ (e = mkExn (OtherError "EOFError") "EOF when reading a line"
          \/ isinstance e Exception = false).
Proof.
  split.
  - exact (proj1 (interactive_contains_errors
                    (console_env offline) ["first"; "second"; "exit"]
                    (ready, empty_world)) eq_refl).
  - exact (proj2 (interactive_contains_errors
                    (console_env offline) ["first"; "second"]
                    (ready, empty_world)) eq_refl).
Defined.

End Interactive1Examples.

(* ================================================================== *)
(** * main of demo 1: what happens to the vector store                *)
(* ================================================================== *)

Section Main1.

Import Demo1 Demo1Ext Observations Examples ExtExamples.

(** Two runs with a common start abort alike when what follows does. *)
Lemma abort_bind {S A B} (m m' : M S A) (k k' : A -> M S B) (st : S) :
  m' st = m st ->
  (forall x st1, m st = (Return x, st1) ->
                 forall e, fst (k x st1) = Raise e -> k' x st1 = k x st1) ->
  forall e, fst (bind m k st) = Raise e -> bind m' k' st = bind m k st.
Proof.
  intros Hm Hk e. unfold bind. rewrite Hm.
  destruct (m st) as [[x|e'] st1]; [|reflexivity].
  apply (Hk x st1 eq_refl).
Qed.

Lemma interactive_with_delete E d (stdin : list string) :
  forall st, interactive (with_delete E d) stdin st = interactive E stdin st.
Proof.
  induction stdin as [|line rest IH]; intros [a w]; [reflexivity|].
  rewrite !interactive_cons. cbv zeta. cbn [with_delete strip lower service_at].
  destruct (is_quit (lower E (strip E line))); [reflexivity|].
  destruct (negb (truthy (Some (strip E line)))); [apply IH|].
  destruct (search_streaming _ _ _ _) as [[[]|e] st1]; [apply IH|].
  destruct (isinstance e Exception); [apply IH|reflexivity].
Qed.

Lemma cleanup_returns d st :
  fails_with_errors d -> fst (cleanup d st) = Return tt.
Proof.
  intros F. destruct st as [a w]. rewrite cleanup_unfold.
  destruct (truthy (vector_store_id a)); [|reflexivity].
  destruct (fst (d (vector_store_id a) w)) as [[]|e] eqn:X; [reflexivity|].
  now rewrite (F _ _ _ X).
Qed.

Lemma main_body_abort E d (stdin : list string) st :
  fails_with_errors (vector_stores_delete E) ->
  forall e,
    fst (main_body E stdin st) = Raise e ->
    main_body (with_delete E d) stdin st = main_body E stdin st.
Proof.
  intros F. unfold main_body.
  repeat (apply abort_bind; [reflexivity|intros ? ? _]).
  apply abort_bind; [apply interactive_with_delete|intros ? ? _].
  apply abort_bind; [reflexivity|intros ? stc _].
  intros e H. exfalso. revert H. unfold bind.
  pose proof (cleanup_returns (vector_stores_delete E) stc F) as C.
  destruct (cleanup (vector_stores_delete E) stc) as [[[]|e'] st'];
    cbn [fst] in C; discriminate.
Qed.

(** X14: [main] reaches [cleanup] only when everything before it
    returned.  When [main] ends with an exception (no API key, a failed
    creation of the vector store, a failed example search, the end of the
    input), the deletion call is never made: the run is the same whatever
    that call would have done, and the vector store stays. *)
Theorem main_abort_skips_cleanup E d (stdin : list string) w e :
  fails_with_errors (vector_stores_delete E) ->
  fst (main E stdin w) = Raise e ->
  main (with_delete E d) stdin w = main E stdin w.
Proof.
  intros F H. unfold main, with_object in *. cbn [fst] in H.
  now rewrite (main_body_abort E d stdin (__init__, w) F e H).
Qed.

Lemma main_abort_skips_cleanup_witness :
  main (with_delete (console_env answering) marking_delete) [] empty_world
  = main (console_env answering) [] empty_world.
Proof.
  apply (main_abort_skips_cleanup
           (console_env answering) marking_delete [] empty_world
           (mkExn (OtherError "EOFError") "EOF when reading a line")).
  - intros o w e H. discriminate.
  - vm_compute. reflexivity.
Defined.

End Main1.

(* ================================================================== *)
(** * The interactive loop of demo 2                                  *)
(* ================================================================== *)

Section Interactive2.

Import Demo2 Demo1Ext Demo2Ext Observations Examples ExtExamples.

Variable E : env.

(** One turn of the loop. *)
Lemma advisor_interactive_cons line rest a w :
  let w0 := write ((nl ++ "Your question: ") ++ "") w in
  let user_input := strip E line in
  Demo2Ext.interactive E (line :: rest) (a, w)
  = if is_quit (lower E user_input)
    then (Return tt,
          (a, write ((nl ++ "Thank you for using Investment Advisor!") ++ nl)
                    w0))
    else if lower E user_input =? "reset"
    then Demo2Ext.interactive E rest
           ({| conversation_id := None |},
            write ("Conversation reset." ++ nl) w0)
    else if negb (truthy (Some user_input))
    then Demo2Ext.interactive E rest (a, w0)
    else
      match get_investment_suggestion
              (service_at E (length (remote_log w0)))
              user_input "gpt-4o" true true (a, w0) with
      | (Return _, st1) => Demo2Ext.interactive E rest st1
      | (Raise e, st1) =>
          if isinstance e Exception
          then Demo2Ext.interactive E rest
                 (fst st1, write ((nl ++ "Error: " ++ str e) ++ nl) (snd st1))
          else (Raise e, st1)
      end.
Proof.
  cbv zeta. cbn [Demo2Ext.interactive]. unfold bind at 1.
  unfold print at 1. unfold modify at 1. cbn [fst snd].
  destruct (is_quit (lower E (strip E line))); [reflexivity|].
  destruct (lower E (strip E line) =? "reset"); [reflexivity|].
  destruct (negb (truthy (Some (strip E line)))); [reflexivity|].
  unfold bind at 1, try_except, calling.
  unfold bind at 1. cbn [fst snd remote_log write].
  destruct (get_investment_suggestion _ _ _ _ _ _) as [[t|e] st1];
    [reflexivity|].
  destruct (isinstance e Exception); reflexivity.
Qed.

Lemma advisor_loop_after_quit (stdin more : list string) :
  quits E stdin = true ->
  forall st,
    Demo2Ext.interactive E (stdin ++ more) st
    = Demo2Ext.interactive E stdin st.
Proof.
  unfold quits. induction stdin as [|line rest IH]; [discriminate|].
  cbn [existsb]. intros H [a w].
  rewrite <- app_comm_cons, !advisor_interactive_cons. cbv zeta.
  destruct (is_quit (lower E (strip E line))); [reflexivity|].
  cbn [orb] in H. specialize (IH H).
  destruct (lower E (strip E line) =? "reset"); [apply IH|].
  destruct (negb (truthy (Some (strip E line)))); [apply IH|].
  destruct (get_investment_suggestion _ _ _ _ _ _) as [[t|e] st1];
    [apply IH|].
  destruct (isinstance e Exception); [apply IH|reflexivity].
Qed.

Lemma advisor_loop_outcome (stdin : list string) :
  forall st,
    (quits E stdin = true ->
     no_error (fst (Demo2Ext.interactive E stdin st)))
    /\ (quits E stdin = false ->
        exists e,
          fst (Demo2Ext.interactive E stdin st) = Raise e
          /\ (e = mkExn (OtherError "EOFError") "EOF when reading a line"
              \/ isinstance e Exception = false)).
Proof.
  induction stdin as [|line rest IH]; intros [a w].
  - split; [discriminate|]. intros _. eexists. split; [reflexivity|].
    now left.
  - rewrite advisor_interactive_cons. cbv zeta. unfold quits in *.
    cbn [existsb].
    destruct (is_quit (lower E (strip E line))).
    + split; [intros _; exact I|discriminate].
    + cbn [orb].
      destruct (lower E (strip E line) =? "reset"); [apply IH|].
      destruct (negb (truthy (Some (strip E line)))); [apply IH|].
      destruct (get_investment_suggestion _ _ _ _ _ _) as [[t|e] st1];
        [apply IH|].
      destruct (isinstance e Exception) eqn:X; [apply IH|].
      split; intros _; [exact X|].
      exists e. split; [reflexivity|now right].
Qed.

(** X15: in the loop of demo 2 an error raised while answering never
    ends the session and the lines after the first quit command are never
    read; a line that reads "reset" once stripped and lowered makes the
    rest of the session start from an advisor that holds no response
    id. *)
Theorem advisor_loop_contains_errors (stdin : list string) st :
  (quits E stdin = true ->
   no_error (fst (Demo2Ext.interactive E stdin st))
   /\ forall more,
       Demo2Ext.interactive E (stdin ++ more) st
       = Demo2Ext.interactive E stdin st)
  /\ (quits E stdin = false ->
      exists e,
        fst (Demo2Ext.interactive E stdin st) = Raise e
        /\ (e = mkExn (OtherError "EOFError") "EOF when reading a line"
            \/ isinstance e Exception = false))
  /\ (forall line rest,
         stdin = line :: rest ->
         is_quit (lower E (strip E line)) = false ->
         lower E (strip E line) = "reset" ->
         exists w',
           Demo2Ext.interactive E stdin st
           = Demo2Ext.interactive E rest ({| conversation_id := None |}, w')
           /\ remote_log w' = remote_log (snd st)).
Proof.
  split; [|split].
  - intros H. split; [apply advisor_loop_outcome, H|].
    intros more. now apply advisor_loop_after_quit.
  - apply advisor_loop_outcome.
  - intros line rest -> Q R. destruct st as [a w].
    rewrite advisor_interactive_cons. cbv zeta. rewrite Q, R.
    cbn [String.eqb]. eexists. split; reflexivity.
Qed.

End Interactive2.

Section Interactive2Examples.

Import Demo2 Demo1Ext Demo2Ext Observations Examples ExtExamples.

Lemma advisor_loop_contains_errors_witness :
  no_error (fst (Demo2Ext.interactive (console_env offline)
                                      ["how to invest?"; "q"]
                                      (__init__, empty_world)))
  /\ exists w',
      Demo2Ext.interactive (console_env answering)
                           ["reset"; "how to invest?"; "q"]
                           ({| conversation_id := Some "resp_0" |}, empty_world)
      = Demo2Ext.interactive (console_env answering)
                             ["how to invest?"; "q"]
                             ({| conversation_id := None |}, w')
      /\ remote_log w' = remote_log empty_world.
Proof.
  split.
  - exact (proj1 (proj1 (advisor_loop_contains_errors
                           (console_env offline) ["how to invest?"; "q"]
                           (__init__, empty_world)) eq_refl)).
  - exact (proj2 (proj2 (advisor_loop_contains_errors
                           (console_env answering)
                           ["reset"; "how to invest?"; "q"]
                           ({| conversation_id := Some "resp_0" |},
                            empty_world)))
                 "reset" ["how to invest?"; "q"] eq_refl eq_refl eq_refl).
Defined.

End Interactive2Examples.

(* ================================================================== *)
(** * test_demos.py                                                   *)
(* ================================================================== *)

Section Tests.

Import Demo1Ext TestDemos Observations Examples ExtExamples.

(** The outcomes that make a test report failure: [False], or an error
    for its handler to catch. *)
Lemma failing_bind {S A} (m m' : M S A) (k k' : A -> M S bool) (st : S) :
  m' st = m st ->
  (forall x st1,
      m st = (Return x, st1) ->
      (fst (k x st1) = Return false
       \/ exists e, fst (k x st1) = Raise e /\ isinstance e Exception = true) ->
      k' x st1 = k x st1) ->
  (fst (bind m k st) = Return false
   \/ exists e, fst (bind m k st) = Raise e /\ isinstance e Exception = true) ->
  bind m' k' st = bind m k st.
Proof.
  intros Hm Hk. unfold bind. rewrite Hm.
  destruct (m st) as [[x|e'] st1]; [|reflexivity].
  apply (Hk x st1 eq_refl).
Qed.

Lemma cleanup_raises_no_error d st e :
  fst (cleanup d st) = Raise e -> isinstance e Exception = false.
Proof.
  destruct st as [a w]. rewrite cleanup_unfold.
  destruct (truthy (Demo1.vector_store_id a)); [|discriminate].
  destruct (fst (d (Demo1.vector_store_id a) w)) as [[]|e']; [discriminate|].
  destruct (isinstance e' Exception) eqn:X; [discriminate|].
  intros H. injection H as <-. exact X.
Qed.

Lemma try_except_no_error {S A} (body : M S A) (handler : exn -> M S A) st :
  (forall e st1, exists a st2, handler e st1 = (Return a, st2)) ->
  no_error (fst (try_except body Exception handler st)).
Proof.
  intros H. unfold try_except.
  destruct (body st) as [[a|e] st1]; [exact I|].
  destruct (isinstance e Exception) eqn:X; [|exact X].
  destruct (H e st1) as [a [st2 ->]]. exact I.
Qed.

Lemma bind_println {Self A} (s : string) (k : unit -> M (@St Self) A) st :
  bind (println s) k st = k tt (fst st, write (s ++ nl) (snd st)).
Proof. reflexivity. Qed.

Lemma test_pdf_search_no_error E w : no_error (fst (test_pdf_search E w)).
Proof.
  unfold test_pdf_search, with_object, test_pdf_search_body. cbn [fst].
  rewrite !bind_println.
  apply try_except_no_error. intros e st1. eexists. eexists. reflexivity.
Qed.

Lemma test_pdf_search_body_failing E d st :
  fst (test_pdf_search_body E st) = Return false ->
  test_pdf_search_body (with_delete E d) st = test_pdf_search_body E st.
Proof.
  unfold test_pdf_search_body. rewrite !bind_println. intros H.
  match goal with
  | |- try_except ?b' _ _ ?s = try_except ?b _ _ _ =>
      assert (Q : b' s = b s); [|unfold try_except; now rewrite Q]
  end.
  apply failing_bind; [reflexivity| |].
  - intros ? st1 _.
    apply failing_bind; [reflexivity|]. intros ? st2 _.
    cbn [with_delete path_exists].
    destruct (path_exists E test_pdf); [|reflexivity].
    apply failing_bind; [reflexivity|]. intros ? st3 _.
    apply failing_bind; [reflexivity|]. intros ? st4 _.
    apply failing_bind; [reflexivity|]. intros response st5 _.
    apply failing_bind; [reflexivity|]. intros ? st6 _.
    intros X. exfalso. unfold bind in X.
    pose proof (cleanup_raises_no_error (vector_stores_delete E) st6) as C.
    destruct (cleanup (vector_stores_delete E) st6) as [[[]|e] st7].
    + cbn in X. destruct X as [X|[e [X _]]]; discriminate.
    + cbn [fst] in X, C. destruct X as [X|[e' [X X']]]; [discriminate|].
      injection X as <-. rewrite (C e eq_refl) in X'. discriminate.
  - unfold try_except in H.
    match type of H with
    | fst (match ?b with _ => _ end) = _ =>
        destruct b as [[v|e] stb] eqn:B
    end.
    + left. cbn [fst] in *. exact H.
    + right. exists e. split; [reflexivity|].
      destruct (isinstance e Exception); [reflexivity|discriminate].
Qed.

(** X16: [test_pdf_search] never fails with an error, and a run that
    reports failure has not called [cleanup]: when the creation of the
    vector store, the upload, or the search raised, or the test PDF is
    missing, the result is [False] and the run is the same whatever the
    deletion call would have done, so a vector store that was created
    stays. *)
Theorem failing_test_skips_cleanup E d w :
  no_error (fst (test_pdf_search E w))
  /\ (fst (test_pdf_search E w) = Return false ->
      test_pdf_search (with_delete E d) w = test_pdf_search E w).
Proof.
  split; [apply test_pdf_search_no_error|].
  unfold test_pdf_search, with_object. cbn [fst]. intros H.
  now rewrite (test_pdf_search_body_failing E d _ H).
Qed.

Lemma failing_test_skips_cleanup_witness :
  test_pdf_search (with_delete (missing_env answering) marking_delete)
                  empty_world
  = test_pdf_search (missing_env answering) empty_world.
Proof.
  exact (proj2 (failing_test_skips_cleanup
                  (missing_env answering) marking_delete empty_world)
               eq_refl).
Defined.

(** X17: [test_pdf_search] does not look at what [upload_pdf] returns.
    When the vector store is created, the test PDF exists and the service
    answers the search, the test reports success whether or not the file
    could be opened, uploaded or attached. *)
Theorem test_passes_whatever_the_upload E w vs :
  new_client E = Return tt ->
  vector_stores_create (service_at E (length (remote_log w))) "Test PDF Store"
  = Return vs ->
  vs <> "" ->
  path_exists E test_pdf = true ->
  (forall n a e,
      upload_steps (service_at E n) (open_rb E) a test_pdf = Raise e ->
      isinstance e Exception = true) ->
  (forall n req, exists r t,
        responses_create (service_at E n) req = Return r
        /\ last_output_text r = Return t) ->
  fails_with_errors (vector_stores_delete E) ->
  fst (test_pdf_search E w) = Return true.
Proof.
  intros Hn Hc Hne Hp Hu Hs Hd.
  unfold test_pdf_search, with_object, test_pdf_search_body. cbn [fst].
  rewrite !bind_println. unfold try_except.
  match goal with
  | |- fst (match ?b with _ => _ end) = _ =>
      assert (Q : fst b = Return true);
      [|destruct b as [[v|e] stb]; cbn [fst] in Q |- *;
        [exact Q|discriminate]]
  end.
  unfold bind at 1. unfold lift at 1. rewrite Hn.
  unfold bind at 1. unfold calling at 1. cbn [fst snd write remote_log].
  rewrite create_vector_store_unfold. cbv zeta. rewrite Hc.
  rewrite Hp. unfold bind at 1. unfold calling at 1. cbn [fst snd].
  assert (Hv : truthy (Demo1.vector_store_id
                         (Demo1.set_vector_store_id (Some vs) Demo1.__init__))
               = true)
    by (cbn; destruct vs; [congruence|reflexivity]).
  rewrite (upload_pdf_unfold _ _ _ _ _ Hv). cbv zeta.
  match goal with
  | |- context [upload_steps ?c ?o ?a ?p] =>
      destruct (upload_steps c o a p) as [fid|e] eqn:U
  end.
  - rewrite bind_println. unfold bind at 1. unfold calling at 1.
    rewrite search_unfold. cbn [fst snd negb]. rewrite Hv. cbn [negb].
    cbv zeta.
    match goal with
    | |- context [responses_create (service_at E ?n) ?req] =>
        destruct (Hs n req) as [r [t [Hr Ht]]]; rewrite Hr, Ht
    end.
    rewrite bind_println. unfold bind at 1.
    match goal with
    | |- context [cleanup ?d ?st] =>
        pose proof (cleanup_returns d st Hd) as C;
        destruct (cleanup d st) as [[[]|e] stc]; cbn [fst] in C;
        [|discriminate]
    end.
    reflexivity.
  - rewrite (Hu _ _ _ U).
    rewrite bind_println. unfold bind at 1. unfold calling at 1.
    rewrite search_unfold. cbn [fst snd negb]. rewrite Hv. cbn [negb].
    cbv zeta.
    match goal with
    | |- context [responses_create (service_at E ?n) ?req] =>
        destruct (Hs n req) as [r [t [Hr Ht]]]; rewrite Hr, Ht
    end.
    rewrite bind_println. unfold bind at 1.
    match goal with
    | |- context [cleanup ?d ?st] =>
        pose proof (cleanup_returns d st Hd) as C;
        destruct (cleanup d st) as [[[]|e'] stc]; cbn [fst] in C;
        [|discriminate]
    end.
    reflexivity.
Qed.

Lemma test_passes_whatever_the_upload_witness :
  fst (test_pdf_search (unreadable_env answering) empty_world) = Return true.
Proof.
  apply (test_passes_whatever_the_upload
           (unreadable_env answering) empty_world "vs_1").
  - reflexivity.
  - reflexivity.
  - discriminate.
  - reflexivity.
  - intros n a e H. cbn in H. injection H as <-. reflexivity.
  - intros n req. eexists. eexists. split; reflexivity.
  - intros o w e H. discriminate.
Defined.

Lemma test_investment_advisor_no_error T w :
  no_error (fst (test_investment_advisor T w)).
Proof.
  unfold test_investment_advisor, with_object, test_investment_advisor_body.
  cbn [fst]. rewrite !bind_println.
  apply try_except_no_error. intros e st1. eexists. eexists. reflexivity.
Qed.

Lemma test_investment_advisor_body_unfold T w :
  let req :=
    {| input := "What are the key principles of portfolio diversification? Keep it brief.";
       OpenAI.model := "gpt-4o-mini";
       OpenAI.instructions := Demo2.instructions;
       previous_response_id := None;
       tools := [];
       stream_flag := false |} in
  let w0 := write (str_mul "=" 60 ++ nl)
              (write ("Testing Demo 2: Investment Advisor" ++ nl)
                 (write ((nl ++ str_mul "=" 60) ++ nl) w)) in
  let w1 := write ((nl ++ "Running test query...") ++ nl) w0 in
  let w2 := log (call_responses_create req) w1 in
  let failed := fun (e : exn) (a : Demo2.InvestmentAdvisor) (w' : world) =>
    if isinstance e Exception
    then (Return false,
          (a, write (("✗ Demo 2 test failed: " ++ str e) ++ nl) w'))
    else (Raise e, (a, w')) in
  test_investment_advisor_body T (Demo2.__init__, w)
  = match new_client (demo_env T) with
    | Raise e => failed e Demo2.__init__ w0
    | Return _ =>
        match responses_create
                (service_at (demo_env T) (length (remote_log w))) req with
        | Raise e => failed e Demo2.__init__ w2
        | Return r =>
            match last_output_text r with
            | Raise e =>
                failed e {| Demo2.conversation_id := Some (id r) |} w2
            | Return t =>
                (Return true,
                 ({| Demo2.conversation_id := Some (id r) |},
                  write ("✓ Demo 2 test passed!" ++ nl)
                    (write ((nl ++ "Response preview: " ++ slice_to T 200 t
                                ++ "..." ++ nl) ++ nl) w2)))
            end
        end
    end.
Proof.
  cbv zeta. unfold test_investment_advisor_body.
  rewrite !bind_println. unfold try_except.
  unfold bind at 1. unfold lift at 1. cbn [fst snd].
  destruct (new_client (demo_env T)) as [[]|e0];
    [|destruct (isinstance e0 Exception); reflexivity].
  rewrite !bind_println. unfold bind at 1. unfold calling at 1.
  cbn [fst snd write remote_log].
  unfold Demo2.get_investment_suggestion.
  rewrite !_sync_response_unfold. cbv zeta.
  unfold Demo2.advisor_request. cbn [Demo2.conversation_id Demo2.__init__].
  destruct (responses_create _ _) as [r|e];
    [|destruct (isinstance e Exception); reflexivity].
  destruct (last_output_text r) as [t|e];
    [reflexivity|destruct (isinstance e Exception); reflexivity].
Qed.

(** X18: [test_investment_advisor] never fails with an error, makes at
    most one request, which is not streamed, offers no tool and is not
    chained to any response, and reports success exactly when the client
    could be created, the service answered and the answer had a text to
    extract. *)
Theorem test_investment_advisor_outcome T w :
  let c := service_at (demo_env T) (length (remote_log w)) in
  let req :=
    {| input := "What are the key principles of portfolio diversification? Keep it brief.";
       OpenAI.model := "gpt-4o-mini";
       OpenAI.instructions := Demo2.instructions;
       previous_response_id := None;
       tools := [];
       stream_flag := false |} in
  let out := test_investment_advisor T w in
  no_error (fst out)
  /\ (fst out = Return true <->
      new_client (demo_env T) = Return tt
      /\ exists r t,
          responses_create c req = Return r /\ last_output_text r = Return t)
  /\ remote_log (snd out)
     = (remote_log w
        ++ match new_client (demo_env T) with
           | Return _ => [call_responses_create req]
           | Raise _ => []
           end)%list.
Proof.
  cbv zeta. split; [apply test_investment_advisor_no_error|].
  unfold test_investment_advisor, with_object.
  rewrite test_investment_advisor_body_unfold. cbv zeta.
  destruct (new_client (demo_env T)) as [[]|e0].
  - destruct (responses_create _ _) as [r|e].
    + destruct (last_output_text r) as [t|e] eqn:L.
      * cbn [fst snd write remote_log log]. split; [|reflexivity].
        split; [intros _|reflexivity].
        split; [reflexivity|]. exists r, t. now split.
      * destruct (isinstance e Exception);
          cbn [fst snd write remote_log log]; (split; [|reflexivity]);
          (split; [discriminate|]);
          intros [_ [r' [t' [Hr Ht]]]]; injection Hr as <-; congruence.
    + destruct (isinstance e Exception);
        cbn [fst snd write remote_log log]; (split; [|reflexivity]);
        (split; [discriminate|]);
        intros [_ [r' [t' [Hr Ht]]]]; discriminate.
  - destruct (isinstance e0 Exception);
      cbn [fst snd write remote_log]; rewrite app_nil_r;
      (split; [|reflexivity]); (split; [discriminate|]);
      intros [H _]; discriminate.
Qed.

(** [print] outside any object: what comes next runs in the world with
    the line added. *)
Lemma bind_echo {A} (s : string) (k : unit -> M world A) w :
  bind (echo s) k w = k tt (write (s ++ nl) w).
Proof. reflexivity. Qed.

(** X19: the test script never fails with an error, whatever the
    service, the disk and the deletion call do; and without an API key
    (unset, or empty) it returns at once, having run no test and made no
    remote call. *)
Theorem test_main_outcome T w :
  no_error (fst (TestDemos.main T w))
  /\ (truthy (OPENAI_API_KEY T) = false ->
      fst (TestDemos.main T w) = Return tt
      /\ remote_log (snd (TestDemos.main T w)) = remote_log w
      /\ forall T',
          OPENAI_API_KEY T' = OPENAI_API_KEY T ->
          TestDemos.main T' w = TestDemos.main T w).
Proof.
  split.
  - unfold TestDemos.main. rewrite !bind_echo.
    destruct (negb (truthy (OPENAI_API_KEY T))); [exact I|].
    unfold bind at 1.
    pose proof (test_pdf_search_no_error (demo_env T)) as N1.
    match goal with
    | |- context [test_pdf_search ?e ?w0] =>
        specialize (N1 w0); destruct (test_pdf_search e w0) as [[r1|e1] w1]
    end; [|exact N1].
    unfold bind at 1.
    pose proof (test_investment_advisor_no_error T w1) as N2.
    destruct (test_investment_advisor T w1) as [[r2|e2] w2]; [|exact N2].
    rewrite !bind_echo. destruct r1, r2; exact I.
  - intros H. unfold TestDemos.main. rewrite !bind_echo, H. cbn [negb].
    rewrite !bind_echo. repeat split.
    intros T' H'. unfold TestDemos.main. rewrite !bind_echo, H', H.
    reflexivity.
Qed.

Lemma test_main_outcome_witness :
  fst (TestDemos.main (unkeyed (console_env answering)) empty_world)
  = Return tt
  /\ remote_log (snd (TestDemos.main (unkeyed (console_env answering))
                                     empty_world)) = [].
Proof.
  pose proof (proj2 (test_main_outcome (unkeyed (console_env answering))
                                       empty_world) eq_refl) as [A [B _]].
  split; [exact A|exact B].
Defined.

End Tests.

(* ================================================================== *)
(** * Demo 2: the chain across a stream that does not complete        *)
(* ================================================================== *)

Section Chain2.

Import Demo2 Aggregation Observations Examples.

(** X20: in demo 2 a streamed turn never loses the chain.  Whether the
    stream ends normally or breaks, [conversation_id] afterwards is the id
    of the last completed event seen, and the id held before when none was
    seen; when the request itself fails it is the id held before.  The
    next request is chained to that id. *)
Theorem advisor_chain_survives_failed_stream c q m (uci : bool) prev w :
  let a := {| conversation_id := prev |} in
  let req := advisor_request a q instructions
               (if uci then [code_interpreter "auto"] else []) m true in
  let out := get_investment_suggestion c q m uci true (a, w) in
  let kept :=
    match responses_create_stream c req with
    | Return s => latest (completed_ids (events s)) prev
    | Raise _ => prev
    end in
  conversation_id (fst (snd out)) = kept
  /\ (forall s, responses_create_stream c req = Return s ->
                completed_ids (events s) = [] -> kept = prev)
  /\ forall c' q' m' uci' streaming,
      Py.last (remote_log (snd (snd (get_investment_suggestion
                                       c' q' m' uci' streaming (snd out)))))
      = Some (call_responses_create
                {| input := q';
                   OpenAI.model := m';
                   OpenAI.instructions := instructions;
                   previous_response_id := kept;
                   tools := if uci' then [code_interpreter "auto"] else [];
                   stream_flag := streaming |}).
Proof.
  cbv zeta.
  assert (K : conversation_id
                (fst (snd (get_investment_suggestion
                             c q m uci true ({| conversation_id := prev |}, w))))
              = match responses_create_stream c
                        (advisor_request {| conversation_id := prev |} q
                           instructions
                           (if uci then [code_interpreter "auto"] else [])
                           m true) with
                | Return s => latest (completed_ids (events s)) prev
                | Raise _ => prev
                end).
  { unfold get_investment_suggestion.
    destruct (responses_create_stream c _) as [s|e] eqn:E.
    - rewrite (_stream_response_spec _ _ _ _ _ _ _ _ E).
      destruct (interrupted s); reflexivity.
    - unfold _stream_response, println, print, remote, notify, modify, lift,
        self, bind.
      cbn [fst snd]. rewrite E. reflexivity. }
  split; [exact K|]. split.
  - intros s -> ->. reflexivity.
  - intros c' q' m' uci' streaming.
    destruct (get_investment_suggestion c q m uci true _) as [r [a' w']].
    cbn [fst snd] in *.
    rewrite get_investment_suggestion_log, last_snoc, K. reflexivity.
Qed.

Lemma advisor_chain_survives_failed_stream_witness :
  conversation_id
    (fst (snd (get_investment_suggestion
                 (service "resp_2" "par"
                          [TextDelta "par"; OtherEvent "response.failed"])
                 "q" "gpt-4o" true true
                 ({| conversation_id := Some "resp_1" |}, empty_world))))
  = Some "resp_1".
Proof.
  pose proof (advisor_chain_survives_failed_stream
                (service "resp_2" "par"
                         [TextDelta "par"; OtherEvent "response.failed"])
                "q" "gpt-4o" true (Some "resp_1") empty_world) as [A [B _]].
  cbv zeta in A, B. rewrite A.
  exact (B {| events := [TextDelta "par"; OtherEvent "response.failed"];
              interrupted := None |} eq_refl eq_refl).
Defined.

End Chain2.
